(** * MetallibSupportPkg handler

    A shallow embedding of
    [opencore_legacy_patcher/support/metallib_handler.py]: the class
    [MetalLibraryObject] with its constructor, the manifest cache
    [_get_remote_metallibs], the resolver [_get_latest_metallib], the local
    probe [_local_metallib_installed], [retrieve_download] and
    [install_metallib].

    The module global [METALLIB_ASSET_LIST], the directory found at
    [METALLIB_INSTALL_PATH] and the history of calls made to the outside
    (HTTP GET, directory probes, installer runs) are threaded through a state
    and exception monad.  Calls to [logging] are left out. *)

From Stdlib Require Import List String Ascii ZArith NArith Bool Lia.
From Stdlib Require Import DecimalString.
Import ListNotations.
Local Open Scope string_scope.

(** ** Python strings *)

(** Truth value of a [str]: only the empty string is false. *)
Definition str_truthy (s : string) : bool :=
  match s with
  | EmptyString => false
  | String _ _ => true
  end.

(** Truth value of a value that is [None] or a [str]. *)
Definition opt_str_truthy (o : option string) : bool :=
  match o with
  | None => false
  | Some s => str_truthy s
  end.

(** The string held by a value that is [None] or a [str], read only where
    the value has been tested true. *)
Definition str_value (o : option string) : string :=
  match o with
  | Some s => s
  | None => ""
  end.

(** Truth value of a value that is [None] or a [list]. *)
Definition opt_list_truthy {A : Type} (o : option (list A)) : bool :=
  match o with
  | Some (_ :: _) => true
  | _ => false
  end.

(** [sub in s] *)
Fixpoint str_contains (sub s : string) : bool :=
  if prefix sub s then true
  else match s with
       | EmptyString => false
       | String _ rest => str_contains sub rest
       end.

(** [s.endswith(suffix)] *)
Fixpoint str_endswith (s suffix : string) : bool :=
  if String.eqb s suffix then true
  else match s with
       | EmptyString => false
       | String _ rest => str_endswith rest suffix
       end.

(** [str(n)] for a non-negative [int]. *)
Definition str_of_int (n : N) : string :=
  NilZero.string_of_uint (N.to_uint n).

(** ** The [packaging.version] interface

    [packaging] is a third-party library.  The handler uses four things of
    it: [parse] (which raises [InvalidVersion] on a string that is no
    version), the attribute [major], and the comparisons [>] and [<=] of
    [Version], which both go through one total order on the comparison
    key. *)

Class PackagingVersion := {
  Version : Type;
  parse : string -> option Version;
  major : Version -> N;
  version_gt : Version -> Version -> bool;
  version_le : Version -> Version -> bool;
  version_le_not_gt : forall a b, version_le a b = negb (version_gt a b)
}.

(** ** The [datasets.os_data] interface

    [os_conversion.os_to_kernel] maps the major OS version, as a string, to
    the kernel generation; [os_data.sequoia] is the generation of the first
    OS that needs the package. *)

Class OsData := {
  os_to_kernel : string -> Z;
  sequoia : Z
}.

(** ** The [pathlib] interface

    [Path(s)] builds a path from a string, putting it in the form
    [pathlib] keeps; paths are held here by the string they print as. *)

Class PathLib := {
  Path : string -> string
}.

(** ** POSIX paths

    The string of [PurePosixPath(s)]: empty and [.] components are
    dropped, a run of slashes counts as one, except that exactly two
    leading slashes are kept, and the empty path prints as [.]. *)

Module Posix.

(** The components of [s] between slashes; [cur] is the one being read. *)
Fixpoint components (s cur : string) : list string :=
  match s with
  | EmptyString => [cur]
  | String c rest =>
      if Ascii.eqb c "/"%char then cur :: components rest EmptyString
      else components rest (cur ++ String c EmptyString)
  end.

Definition kept (component : string) : bool :=
  negb ((component =? "")%string || (component =? ".")%string).

Definition root (s : string) : string :=
  match s with
  | String "/" (String "/" (String "/" _)) => "/"
  | String "/" (String "/" _) => "//"
  | String "/" _ => "/"
  | _ => ""
  end.

Definition path (s : string) : string :=
  match root s ++ concat "/" (filter kept (components s EmptyString)) with
  | EmptyString => "."
  | printed => printed
  end.

End Posix.

#[export] Instance posix_paths : PathLib := {
  Path := Posix.path
}.

(** ** Release-only versions

    The fragment [N(.N)*] of the version grammar, which is what macOS
    versions are: the release segment alone, compared after dropping
    trailing zeros ([15.0] equals [15]).  A string outside the fragment is
    rejected here. *)

Module Release.

Definition digit_of (c : ascii) : option N :=
  let n := N_of_ascii c in
  if ((48 <=? n) && (n <=? 57))%N then Some (n - 48)%N else None.

(** [cur] is the number being read ([None] before its first digit). *)
Fixpoint parse_from (s : string) (cur : option N) : option (list N) :=
  match s with
  | EmptyString =>
      match cur with
      | Some n => Some [n]
      | None => None
      end
  | String c rest =>
      if Ascii.eqb c "."%char then
        match cur, parse_from rest None with
        | Some n, Some l => Some (n :: l)
        | _, _ => None
        end
      else
        match digit_of c with
        | Some d =>
            parse_from rest
              (Some (match cur with
                     | Some n => 10 * n + d
                     | None => d
                     end)%N)
        | None => None
        end
  end.

Definition parse (s : string) : option (list N) := parse_from s None.

Definition major (v : list N) : N := hd 0%N v.

Fixpoint all_zero (v : list N) : bool :=
  match v with
  | [] => true
  | n :: rest => (n =? 0)%N && all_zero rest
  end.

(** Lexicographic comparison where a missing segment counts as zero,
    which is tuple comparison after trailing zeros are dropped. *)
Fixpoint compare (a b : list N) : comparison :=
  match a, b with
  | [], _ => if all_zero b then Eq else Lt
  | _, [] => if all_zero a then Eq else Gt
  | x :: a', y :: b' =>
      match (x ?= y)%N with
      | Eq => compare a' b'
      | c => c
      end
  end.

Definition gt (a b : list N) : bool :=
  match compare a b with Gt => true | _ => false end.

Definition le (a b : list N) : bool :=
  match compare a b with Gt => false | _ => true end.

End Release.

#[export] Instance release_version : PackagingVersion := {
  Version := list N;
  parse := Release.parse;
  major := Release.major;
  version_gt := Release.gt;
  version_le := Release.le;
  version_le_not_gt := fun a b =>
    match Release.compare a b as c
      return (match c with Gt => false | _ => true end
              = negb (match c with Gt => true | _ => false end))
    with
    | Eq | Lt | Gt => eq_refl
    end
}.

(** Modelled from the spec: [datasets/os_data.py] is not among the sources,
    and the spec fixes neither the table nor the threshold generation.  For
    the concrete runs, major version [n] is given generation [n + 9] and the
    threshold is 24, which makes macOS 15 the first OS that needs the
    package. *)
Definition xnu_os_to_kernel (os : string) : Z :=
  match Release.parse os with
  | Some [n] => Z.of_N n + 9
  | _ => 0
  end.

#[export] Instance xnu_os_data : OsData := {
  os_to_kernel := xnu_os_to_kernel;
  sequoia := 24
}.

(** ** Data *)

Definition METALLIB_INSTALL_PATH : string :=
  "/Library/Application Support/Dortania/MetallibSupportPkg".
Definition METALLIB_API_LINK : string :=
  "https://dortania.github.io/MetallibSupportPkg/manifest.json".

(** The fields of [constants.Constants] the handler reads. *)
Record Constants := {
  installer_environment : bool;
  recovery_environment : bool;
  patcher_version : string;
  metallib_download_path : string
}.

(** One object of the manifest, read with the keys ["build"], ["version"]
    and ["url"]; the manifest is the JSON array, in the order delivered. *)
Record ManifestEntry := {
  build : string;
  version : string;
  url : string
}.

Definition Manifest := list ManifestEntry.

(** What is found at [METALLIB_INSTALL_PATH]: nothing, something that is no
    directory, or a directory whose children are listed in [iterdir] order,
    each with its name and the answer of [is_dir]. *)
Inductive FsNode :=
| Absent
| NotDir
| Dir (children : list (string * bool)).

(** Calls made to the outside. *)
Inductive Event :=
| NetGet (link user_agent : string) (timeout : Z)
| FsExists (path : string)
| FsIterdir (path : string)
| RunAsRoot (argv : list string).

Inductive RequestException :=
| Timeout
| TooManyRedirects
| ConnectionError
| OtherRequestException.

(** The outcome of [NetworkUtilities().get]: an exception, or a response
    with its [status_code] and what [json()] gives ([None] when the body
    does not parse). *)
Inductive NetOutcome :=
| NetRaises (e : RequestException)
| NetResponse (status_code : Z) (json : option Manifest).

Inductive Exn :=
| InvalidVersion (s : string)
| RequestError (e : RequestException)
| JSONDecodeError
| NotADirectoryError (path : string).

(** The process: the module global, the install root and the history of
    outside calls, oldest first. *)
Record Process := {
  METALLIB_ASSET_LIST : option Manifest;
  install_root : FsNode;
  trace : list Event
}.

(** The outside: the answer of the manifest endpoint and of the installer
    run, each given the history so far; the installer also leaves the
    install root in some state. *)
Record Env := {
  http_get : list Event -> NetOutcome;
  run_as_root : list Event -> list string -> FsNode -> Z * FsNode
}.

Record MetalLibraryObject := {
  constants : Constants;
  host_build : string;
  host_version : string;
  passive : bool;
  ignore_installed : bool;
  metallib_already_installed : bool;
  metallib_installed_path : option string;
  metallib_url : string;
  metallib_url_build : string;
  metallib_url_version : string;
  metallib_url_is_exactly_match : bool;
  metallib_closest_match_url : string;
  metallib_closest_match_url_build : string;
  metallib_closest_match_url_version : string;
  success : bool;
  error_msg : string
}.

(** Attribute assignments [self.x = v]. *)

Definition set_already_installed (v : bool) (o : MetalLibraryObject) :=
  {| constants := constants o; host_build := host_build o;
     host_version := host_version o; passive := passive o;
     ignore_installed := ignore_installed o;
     metallib_already_installed := v;
     metallib_installed_path := metallib_installed_path o;
     metallib_url := metallib_url o;
     metallib_url_build := metallib_url_build o;
     metallib_url_version := metallib_url_version o;
     metallib_url_is_exactly_match := metallib_url_is_exactly_match o;
     metallib_closest_match_url := metallib_closest_match_url o;
     metallib_closest_match_url_build := metallib_closest_match_url_build o;
     metallib_closest_match_url_version :=
       metallib_closest_match_url_version o;
     success := success o; error_msg := error_msg o |}.

Definition set_installed_path (v : option string) (o : MetalLibraryObject) :=
  {| constants := constants o; host_build := host_build o;
     host_version := host_version o; passive := passive o;
     ignore_installed := ignore_installed o;
     metallib_already_installed := metallib_already_installed o;
     metallib_installed_path := v;
     metallib_url := metallib_url o;
     metallib_url_build := metallib_url_build o;
     metallib_url_version := metallib_url_version o;
     metallib_url_is_exactly_match := metallib_url_is_exactly_match o;
     metallib_closest_match_url := metallib_closest_match_url o;
     metallib_closest_match_url_build := metallib_closest_match_url_build o;
     metallib_closest_match_url_version :=
       metallib_closest_match_url_version o;
     success := success o; error_msg := error_msg o |}.

(** [self.metallib_url], [self.metallib_url_build] and
    [self.metallib_url_version], assigned together. *)
Definition set_url_fields (u b v : string) (o : MetalLibraryObject) :=
  {| constants := constants o; host_build := host_build o;
     host_version := host_version o; passive := passive o;
     ignore_installed := ignore_installed o;
     metallib_already_installed := metallib_already_installed o;
     metallib_installed_path := metallib_installed_path o;
     metallib_url := u;
     metallib_url_build := b;
     metallib_url_version := v;
     metallib_url_is_exactly_match := metallib_url_is_exactly_match o;
     metallib_closest_match_url := metallib_closest_match_url o;
     metallib_closest_match_url_build := metallib_closest_match_url_build o;
     metallib_closest_match_url_version :=
       metallib_closest_match_url_version o;
     success := success o; error_msg := error_msg o |}.

Definition set_is_exactly_match (v : bool) (o : MetalLibraryObject) :=
  {| constants := constants o; host_build := host_build o;
     host_version := host_version o; passive := passive o;
     ignore_installed := ignore_installed o;
     metallib_already_installed := metallib_already_installed o;
     metallib_installed_path := metallib_installed_path o;
     metallib_url := metallib_url o;
     metallib_url_build := metallib_url_build o;
     metallib_url_version := metallib_url_version o;
     metallib_url_is_exactly_match := v;
     metallib_closest_match_url := metallib_closest_match_url o;
     metallib_closest_match_url_build := metallib_closest_match_url_build o;
     metallib_closest_match_url_version :=
       metallib_closest_match_url_version o;
     success := success o; error_msg := error_msg o |}.

(** [self.metallib_closest_match_url] and its [_build] and [_version],
    assigned together. *)
Definition set_closest_fields (u b v : string) (o : MetalLibraryObject) :=
  {| constants := constants o; host_build := host_build o;
     host_version := host_version o; passive := passive o;
     ignore_installed := ignore_installed o;
     metallib_already_installed := metallib_already_installed o;
     metallib_installed_path := metallib_installed_path o;
     metallib_url := metallib_url o;
     metallib_url_build := metallib_url_build o;
     metallib_url_version := metallib_url_version o;
     metallib_url_is_exactly_match := metallib_url_is_exactly_match o;
     metallib_closest_match_url := u;
     metallib_closest_match_url_build := b;
     metallib_closest_match_url_version := v;
     success := success o; error_msg := error_msg o |}.

Definition set_success (v : bool) (o : MetalLibraryObject) :=
  {| constants := constants o; host_build := host_build o;
     host_version := host_version o; passive := passive o;
     ignore_installed := ignore_installed o;
     metallib_already_installed := metallib_already_installed o;
     metallib_installed_path := metallib_installed_path o;
     metallib_url := metallib_url o;
     metallib_url_build := metallib_url_build o;
     metallib_url_version := metallib_url_version o;
     metallib_url_is_exactly_match := metallib_url_is_exactly_match o;
     metallib_closest_match_url := metallib_closest_match_url o;
     metallib_closest_match_url_build := metallib_closest_match_url_build o;
     metallib_closest_match_url_version :=
       metallib_closest_match_url_version o;
     success := v; error_msg := error_msg o |}.

Definition set_error_msg (v : string) (o : MetalLibraryObject) :=
  {| constants := constants o; host_build := host_build o;
     host_version := host_version o; passive := passive o;
     ignore_installed := ignore_installed o;
     metallib_already_installed := metallib_already_installed o;
     metallib_installed_path := metallib_installed_path o;
     metallib_url := metallib_url o;
     metallib_url_build := metallib_url_build o;
     metallib_url_version := metallib_url_version o;
     metallib_url_is_exactly_match := metallib_url_is_exactly_match o;
     metallib_closest_match_url := metallib_closest_match_url o;
     metallib_closest_match_url_build := metallib_closest_match_url_build o;
     metallib_closest_match_url_version :=
       metallib_closest_match_url_version o;
     success := success o; error_msg := v |}.

(** ** State and exceptions *)

Inductive Result (A : Type) :=
| Return (a : A)
| Raise (e : Exn).

Arguments Return {A} a.
Arguments Raise {A} e.

Definition M (A : Type) : Type := Process -> Result A * Process.

Definition ret {A : Type} (a : A) : M A := fun p => (Return a, p).

Definition raise {A : Type} (e : Exn) : M A := fun p => (Raise e, p).

Definition bind {A B : Type} (m : M A) (k : A -> M B) : M B :=
  fun p =>
    match m p with
    | (Return a, p') => k a p'
    | (Raise e, p') => (Raise e, p')
    end.

Notation "x <- m ;; k" := (bind m (fun x => k))
  (at level 61, m at next level, right associativity).
Notation "m ;;; k" := (bind m (fun _ => k))
  (at level 61, right associativity).

Definition record (ev : Event) (p : Process) : Process :=
  {| METALLIB_ASSET_LIST := METALLIB_ASSET_LIST p;
     install_root := install_root p;
     trace := trace p ++ [ev] |}.

(** Reading and assigning the global [METALLIB_ASSET_LIST]. *)
Definition get_asset_list : M (option Manifest) :=
  fun p => (Return (METALLIB_ASSET_LIST p), p).

Definition set_asset_list (v : option Manifest) : M unit :=
  fun p =>
    (Return tt,
     {| METALLIB_ASSET_LIST := v;
        install_root := install_root p;
        trace := trace p |}).

(** [Path(path).exists()] at the install root. *)
Definition path_exists (path : string) : M bool :=
  fun p =>
    (Return (match install_root p with Absent => false | _ => true end),
     record (FsExists path) p).

(** [Path(path).iterdir()] at the install root, each child with its
    [is_dir()]. *)
Definition path_iterdir (path : string) : M (list (string * bool)) :=
  fun p =>
    (match install_root p with
     | Dir children => Return children
     | _ => Raise (NotADirectoryError path)
     end,
     record (FsIterdir path) p).

(** [network_handler.DownloadObject(url, path)] *)
Record DownloadObject := {
  download_url : string;
  download_path : string
}.

(** Calling [f] on each argument in turn. *)
Fixpoint call_each {A B : Type} (f : A -> M B) (args : list A)
  : M (list B) :=
  match args with
  | [] => ret []
  | a :: rest =>
      b <- f a ;;
      bs <- call_each f rest ;;
      ret (b :: bs)
  end.

Section Handler.

Context {PV : PackagingVersion} {OS : OsData} {PL : PathLib}.
Variable env : Env.

(** [network_handler.NetworkUtilities().get(link, headers, timeout)] *)
Definition network_get (link user_agent : string) (timeout : Z)
  : M NetOutcome :=
  fun p =>
    (Return (http_get env (trace p)),
     record (NetGet link user_agent timeout) p).

(** [subprocess_wrapper.run_as_root(argv, ...)], giving [returncode]. *)
Definition subprocess_run_as_root (argv : list string) : M Z :=
  fun p =>
    let '(returncode, root) :=
      run_as_root env (trace p) argv (install_root p) in
    (Return returncode,
     {| METALLIB_ASSET_LIST := METALLIB_ASSET_LIST p;
        install_root := root;
        trace := trace p ++ [RunAsRoot argv] |}).

(** [packaging.version.parse(s)] *)
Definition version_parse (s : string) : M Version :=
  match parse s with
  | Some v => ret v
  | None => raise (InvalidVersion s)
  end.

(** ** [_get_remote_metallibs] *)

Definition _get_remote_metallibs (self : MetalLibraryObject)
  : M (option Manifest) :=
  cached <- get_asset_list ;;
  if opt_list_truthy cached then ret cached
  else
    results <- network_get METALLIB_API_LINK
                 ("OCLP/" ++ patcher_version (constants self)) 5 ;;
    match results with
    | NetRaises Timeout
    | NetRaises TooManyRedirects
    | NetRaises ConnectionError => ret None
    | NetRaises e => raise (RequestError e)
    | NetResponse status_code json =>
        if negb (status_code =? 200)%Z then ret None
        else
          match json with
          | None => raise JSONDecodeError
          | Some manifest =>
              set_asset_list (Some manifest) ;;;
              ret (Some manifest)
          end
    end.

(** ** [_local_metallib_installed] *)

(** [str(metallib_folder)] for the child [name] of the install root. *)
Definition folder_path (name : string) : string :=
  METALLIB_INSTALL_PATH ++ "/" ++ name.

(** The loop over [path.iterdir()]. *)
Fixpoint first_matching_folder (match_ : option string)
    (check_version : bool) (children : list (string * bool))
  : option string :=
  match children with
  | [] => None
  | (name, is_dir) :: rest =>
      if negb is_dir then
        first_matching_folder match_ check_version rest
      else if check_version then
        if opt_str_truthy match_
           && negb (str_contains (str_value match_) name)
        then first_matching_folder match_ check_version rest
        else Some (folder_path name)
      else
        if opt_str_truthy match_
           && negb (str_endswith name ("-" ++ str_value match_))
        then first_matching_folder match_ check_version rest
        else Some (folder_path name)
  end.

Definition _local_metallib_installed (self : MetalLibraryObject)
    (match_ : option string) (check_version : bool)
  : M (option string) :=
  if ignore_installed self then ret None
  else
    found <- path_exists METALLIB_INSTALL_PATH ;;
    if negb found then ret None
    else
      children <- path_iterdir METALLIB_INSTALL_PATH ;;
      ret (first_matching_folder match_ check_version children).

(** ** [_get_latest_metallib] *)

(** The loop "Exact build match first". *)
Fixpoint exact_build_loop (manifest : Manifest)
    (self : MetalLibraryObject) : MetalLibraryObject :=
  match manifest with
  | [] => self
  | metallib :: rest =>
      if (build metallib =? host_build self)%string then
        set_is_exactly_match true
          (set_url_fields (url metallib) (build metallib)
             (version metallib) self)
      else exact_build_loop rest self
  end.

(** The loop "Closest match". *)
Fixpoint closest_match_loop (parsed_version : Version)
    (manifest : Manifest) (self : MetalLibraryObject)
  : M MetalLibraryObject :=
  match manifest with
  | [] => ret self
  | metallib :: rest =>
      metallib_version <- version_parse (version metallib) ;;
      if version_gt metallib_version parsed_version then
        closest_match_loop parsed_version rest self
      else if negb (major metallib_version =? major parsed_version)%N then
        closest_match_loop parsed_version rest self
      else
        ret (set_closest_fields (url metallib) (build metallib)
               (version metallib) self)
  end.

Definition _get_latest_metallib (self : MetalLibraryObject)
  : M MetalLibraryObject :=
  parsed_version <- version_parse (host_version self) ;;
  if (os_to_kernel (str_of_int (major parsed_version)) <? sequoia)%Z then
    ret (set_success true self)
  else
    installed <- _local_metallib_installed self None false ;;
    let self := set_installed_path installed self in
    if opt_str_truthy (metallib_installed_path self) then
      ret (set_success true (set_already_installed true self))
    else
      remote_metallib_version <- _get_remote_metallibs self ;;
      match remote_metallib_version with
      | None =>
          ret (set_error_msg "Failed to fetch Metallib manifest" self)
      | Some manifest =>
          let self := exact_build_loop manifest self in
          if negb (str_truthy (metallib_url self)) then
            self <- closest_match_loop parsed_version manifest self ;;
            if negb (str_truthy (metallib_closest_match_url self)) then
              ret (set_error_msg
                     ("No suitable metallib found for " ++ host_build self)
                     self)
            else
              ret (set_success true
                     (set_url_fields
                        (metallib_closest_match_url self)
                        (metallib_closest_match_url_build self)
                        (metallib_closest_match_url_version self)
                        self))
          else ret (set_success true self)
      end.

(** The part of [_get_latest_metallib] that follows the fetch, from
    "Exact build match first" to the end, under a name of its own. *)
Definition resolve_with (parsed_version : Version) (manifest : Manifest)
    (self : MetalLibraryObject) : M MetalLibraryObject :=
  let self := exact_build_loop manifest self in
  if negb (str_truthy (metallib_url self)) then
    self <- closest_match_loop parsed_version manifest self ;;
    if negb (str_truthy (metallib_closest_match_url self)) then
      ret (set_error_msg
             ("No suitable metallib found for " ++ host_build self) self)
    else
      ret (set_success true
             (set_url_fields
                (metallib_closest_match_url self)
                (metallib_closest_match_url_build self)
                (metallib_closest_match_url_version self)
                self))
  else ret (set_success true self).

(** ** [__init__] *)

(** The attributes as the constructor first assigns them. *)
Definition new_object (global_constants : Constants)
    (host_build host_version : string) (ignore_installed passive : bool)
  : MetalLibraryObject :=
  {| constants := global_constants;
     host_build := host_build;
     host_version := host_version;
     passive := passive;
     ignore_installed := ignore_installed;
     metallib_already_installed := false;
     metallib_installed_path := Some "";
     metallib_url := "";
     metallib_url_build := "";
     metallib_url_version := "";
     metallib_url_is_exactly_match := false;
     metallib_closest_match_url := "";
     metallib_closest_match_url_build := "";
     metallib_closest_match_url_version := "";
     success := false;
     error_msg := "" |}.

Definition __init__ (global_constants : Constants)
    (host_build host_version : string) (ignore_installed passive : bool)
  : M MetalLibraryObject :=
  let self :=
    new_object global_constants host_build host_version
      ignore_installed passive in
  if installer_environment (constants self)
     || recovery_environment (constants self)
  then ret (set_success true self)
  else _get_latest_metallib self.

(** ** [retrieve_download] *)

Definition retrieve_download (self : MetalLibraryObject)
    (override_path : string) : option DownloadObject :=
  if metallib_already_installed self
     || negb (str_truthy (metallib_url self))
  then None
  else
    let download_path :=
      if negb (str_truthy override_path)
      then metallib_download_path (constants self)
      else Path override_path in
    Some {| download_url := metallib_url self;
            download_path := download_path |}.

(** ** [install_metallib] *)

Definition installer_argv (self : MetalLibraryObject)
    (metallib : option string) : list string :=
  [ "/usr/sbin/installer";
    "-pkg";
    (if opt_str_truthy metallib then str_value metallib
     else metallib_download_path (constants self));
    "-target";
    "/" ].

Definition install_metallib (self : MetalLibraryObject)
    (metallib : option string) : M bool :=
  if passive self then ret true
  else if negb (success self) || metallib_already_installed self
  then ret true
  else
    returncode <- subprocess_run_as_root (installer_argv self metallib) ;;
    if negb (returncode =? 0)%Z then ret false
    else ret true.

(** ** Sequences of calls

    What a process may do with the module: construct an object, or call
    one of the methods of an object it has. *)

Inductive Call :=
| Construct (global_constants : Constants) (host_build host_version : string)
    (ignore_installed passive : bool)
| GetRemoteMetallibs (self : MetalLibraryObject)
| LocalMetallibInstalled (self : MetalLibraryObject)
    (match_ : option string) (check_version : bool)
| RetrieveDownload (self : MetalLibraryObject) (override_path : string)
| InstallMetallib (self : MetalLibraryObject) (metallib : option string).

(** The process after the call, whether it returned or raised. *)
Definition after_call (call : Call) (p : Process) : Process :=
  match call with
  | Construct c hb hv ig pa => snd (__init__ c hb hv ig pa p)
  | GetRemoteMetallibs self => snd (_get_remote_metallibs self p)
  | LocalMetallibInstalled self match_ check_version =>
      snd (_local_metallib_installed self match_ check_version p)
  | RetrieveDownload _ _ => p
  | InstallMetallib self metallib => snd (install_metallib self metallib p)
  end.

Definition after_calls (calls : list Call) (p : Process) : Process :=
  fold_left (fun q call => after_call call q) calls p.

End Handler.

(** ** Vocabulary of the statements *)

(** The calls to the manifest endpoint and the probes of the install root
    found in a history. *)
Definition is_fetch_or_probe (ev : Event) : bool :=
  match ev with
  | NetGet _ _ _ | FsExists _ | FsIterdir _ => true
  | RunAsRoot _ => false
  end.

Definition is_fetch (ev : Event) : bool :=
  match ev with
  | NetGet _ _ _ => true
  | _ => false
  end.

Definition fetches_and_probes (t : list Event) : list Event :=
  filter is_fetch_or_probe t.

Definition fetches (t : list Event) : list Event := filter is_fetch t.

(** The entry held by the [metallib_closest_match_url*] attributes, the
    entry held by the [metallib_url*] attributes, and what both hold before
    any assignment. *)
Definition closest_entry (self : MetalLibraryObject) : ManifestEntry :=
  {| build := metallib_closest_match_url_build self;
     version := metallib_closest_match_url_version self;
     url := metallib_closest_match_url self |}.

Definition selected_entry (self : MetalLibraryObject) : ManifestEntry :=
  {| build := metallib_url_build self;
     version := metallib_url_version self;
     url := metallib_url self |}.

Definition no_entry : ManifestEntry :=
  {| build := ""; version := ""; url := "" |}.

(** The two filters of the closest match: the entry's version is at most
    the host's and has the host's major version. *)
Definition closest_ok {PV : PackagingVersion} (host : Version)
    (entry : ManifestEntry) : bool :=
  match parse (version entry) with
  | Some v => version_le v host && (major v =? major host)%N
  | None => false
  end.

(** ** Concrete runs

    A host on macOS 15 and one on macOS 14, with the release-only versions
    and the XNU table. *)

Module Sample.

Definition consts : Constants :=
  {| installer_environment := false;
     recovery_environment := false;
     patcher_version := "2.4.0";
     metallib_download_path := "/tmp/MetallibSupportPkg.pkg" |}.

Definition installer_consts : Constants :=
  {| installer_environment := true;
     recovery_environment := false;
     patcher_version := "2.4.0";
     metallib_download_path := "/tmp/MetallibSupportPkg.pkg" |}.

Definition entry_15_0 : ManifestEntry :=
  {| build := "24A335"; version := "15.0";
     url := "https://example.org/15.0-24A335.pkg" |}.

Definition entry_15_1 : ManifestEntry :=
  {| build := "24B83"; version := "15.1";
     url := "https://example.org/15.1-24B83.pkg" |}.

Definition entry_15_2 : ManifestEntry :=
  {| build := "24C101"; version := "15.2";
     url := "https://example.org/15.2-24C101.pkg" |}.

Definition entry_26_0 : ManifestEntry :=
  {| build := "25A354"; version := "26.0";
     url := "https://example.org/26.0-25A354.pkg" |}.

(** An entry published without a download location. *)
Definition entry_no_url : ManifestEntry :=
  {| build := "24B91"; version := "15.1.1"; url := "" |}.

Definition manifest : Manifest :=
  [entry_26_0; entry_15_2; entry_15_1; entry_15_0].

(** The endpoint always answers 200 with [m]; the installer succeeds and
    leaves the install root as it is. *)
Definition serving (m : Manifest) : Env :=
  {| http_get := fun _ => NetResponse 200 (Some m);
     run_as_root := fun _ _ root => (0%Z, root) |}.

(** A fresh process with nothing at the install root. *)
Definition fresh : Process :=
  {| METALLIB_ASSET_LIST := None; install_root := Absent; trace := [] |}.

(** A fresh process where the install root holds a file and the folder of
    another OS. *)
Definition with_folder : Process :=
  {| METALLIB_ASSET_LIST := None;
     install_root := Dir [(".DS_Store", false); ("14.6-23G80", true)];
     trace := [] |}.

(** The process after the probe found nothing and [m] was fetched. *)
Definition fetched (m : Manifest) : Process :=
  {| METALLIB_ASSET_LIST := Some m;
     install_root := Absent;
     trace := [FsExists METALLIB_INSTALL_PATH;
               NetGet METALLIB_API_LINK "OCLP/2.4.0" 5] |}.

(** A manifest where the entry of build [24B91] has no URL. *)
Definition manifest_missing_url : Manifest := [entry_15_0; entry_no_url].

End Sample.

(** ** Vocabulary of the further statements *)

(** The name test of the probe, as a proposition: without a match
    argument, or with an empty one, every name passes; otherwise the name
    must contain the match (when checking by version) or end with a dash
    and the match. *)
Definition folder_matches (match_ : option string) (check_version : bool)
    (name : string) : Prop :=
  opt_str_truthy match_ = true ->
  if check_version
  then exists before after, name = before ++ str_value match_ ++ after
  else exists before, name = before ++ "-" ++ str_value match_.

(** The three ways the closest-match loop can end on a manifest: at the
    first entry that passes both filters, at the end of the manifest, or
    at the first version that does not parse. *)
Definition closest_loop_ends {PV : PackagingVersion} (pv : Version)
    (manifest : Manifest) (self : MetalLibraryObject) (p : Process)
  : Prop :=
  (exists before entry after,
      manifest = (before ++ entry :: after)%list
      /\ Forall (fun m => parse (version m) <> None
                          /\ closest_ok pv m = false) before
      /\ closest_ok pv entry = true
      /\ closest_match_loop pv manifest self p
         = (Return (set_closest_fields (url entry) (build entry)
                      (version entry) self), p))
  \/ (Forall (fun m => parse (version m) <> None
                       /\ closest_ok pv m = false) manifest
      /\ closest_match_loop pv manifest self p = (Return self, p))
  \/ (exists before bad after,
         manifest = (before ++ bad :: after)%list
         /\ Forall (fun m => parse (version m) <> None
                             /\ closest_ok pv m = false) before
         /\ parse (version bad) = None
         /\ closest_match_loop pv manifest self p
            = (Raise (InvalidVersion (version bad)), p)).

(** Whether the manifest lists the build [hb]. *)
Definition lists_build (hb : string) (manifest : Manifest) : bool :=
  existsb (fun m => (build m =? hb)%string) manifest.

(** The request a fetch made by [self] sends. *)
Definition manifest_request (self : MetalLibraryObject) : Event :=
  NetGet METALLIB_API_LINK ("OCLP/" ++ patcher_version (constants self)) 5.

(** What one construction may have done to get from [p] to [p']: the
    install root is the same, and the history has grown by at most one
    probe of the install root followed by at most one request. *)
Definition one_construction (c : Constants) (hb hv : string)
    (ig pa : bool) (p p' : Process) : Prop :=
  install_root p' = install_root p
  /\ exists probes requests,
       trace p' = (trace p ++ probes ++ requests)%list
       /\ (probes = []
           \/ probes = [FsExists METALLIB_INSTALL_PATH]
           \/ probes = [FsExists METALLIB_INSTALL_PATH;
                        FsIterdir METALLIB_INSTALL_PATH])
       /\ (requests = []
           \/ requests = [manifest_request (new_object c hb hv ig pa)])
       /\ (ig = true -> probes = [])
       /\ (requests = [] ->
           METALLIB_ASSET_LIST p' = METALLIB_ASSET_LIST p).

(** More sample data: an endpoint that cannot be reached and an installer
    that fails; an endpoint that answers 404; a manifest with an entry
    whose version is no version. *)
Module Outage.

Definition unreachable : Env :=
  {| http_get := fun _ => NetRaises ConnectionError;
     run_as_root := fun _ _ root => (1%Z, root) |}.

Definition not_found : Env :=
  {| http_get := fun _ => NetResponse 404 None;
     run_as_root := fun _ _ root => (1%Z, root) |}.

Definition entry_malformed : ManifestEntry :=
  {| build := "24X1"; version := "fifteen";
     url := "https://example.org/fifteen.pkg" |}.

(** The process after the probe found nothing and a fetch by an object
    of the sample constants failed. *)
Definition after_failed_fetch : Process :=
  {| METALLIB_ASSET_LIST := None;
     install_root := Absent;
     trace := [FsExists METALLIB_INSTALL_PATH;
               NetGet METALLIB_API_LINK "OCLP/2.4.0" 5] |}.

(** A process whose install root holds the folders of two builds. *)
Definition two_folders : Process :=
  {| METALLIB_ASSET_LIST := None;
     install_root :=
       Dir [("README", false); ("15.0-24A335", true); ("15.1-24B83", true)];
     trace := [] |}.

(** The object constructed for the host of build [24B83] on 15.1 from
    the sample manifest, and the one constructed for the host of build
    [24B91] on 15.1.1 from the manifest where that build has no URL. *)
Definition resolved_listed : MetalLibraryObject :=
  set_success true
    (set_is_exactly_match true
       (set_url_fields (url Sample.entry_15_1) (build Sample.entry_15_1)
          (version Sample.entry_15_1)
          (set_installed_path None
             (new_object Sample.consts "24B83" "15.1" false false)))).

Definition resolved_missing_url : MetalLibraryObject :=
  set_success true
    (set_url_fields (url Sample.entry_15_0) (build Sample.entry_15_0)
       (version Sample.entry_15_0)
       (set_closest_fields (url Sample.entry_15_0)
          (build Sample.entry_15_0) (version Sample.entry_15_0)
          (set_is_exactly_match true
             (set_url_fields "" "24B91" "15.1.1"
                (set_installed_path None
                   (new_object Sample.consts "24B91" "15.1.1"
                      false false)))))).

End Outage.

(** * Properties *)

(** ** Running the monad *)

Lemma bind_return {A B : Type} (m : M A) (k : A -> M B) p a p' :
  m p = (Return a, p') -> bind m k p = k a p'.
Proof. intros Hm. unfold bind. now rewrite Hm. Qed.

Lemma call_each_unchanged {A B : Type} (f : A -> M B) (args : list A)
    (b : B) p :
  (forall a, f a p = (Return b, p)) ->
  call_each f args p = (Return (map (fun _ => b) args), p).
Proof.
  intros Hf. induction args as [|a rest IH]; simpl.
  - reflexivity.
  - rewrite (bind_return _ _ _ _ _ (Hf a)).
    now rewrite (bind_return _ _ _ _ _ IH).
Qed.

Section Properties.

Context {PV : PackagingVersion} {OS : OsData} {PL : PathLib}.
Variable env : Env.

(** *** The environment guard and the OS gate *)

Lemma init_guarded c hb hv ig pa p :
  installer_environment c || recovery_environment c = true ->
  __init__ env c hb hv ig pa p
  = (Return (set_success true (new_object c hb hv ig pa)), p).
Proof. intros Hg. unfold __init__. simpl. now rewrite Hg. Qed.

Lemma init_unguarded c hb hv ig pa p :
  installer_environment c || recovery_environment c = false ->
  __init__ env c hb hv ig pa p
  = _get_latest_metallib env (new_object c hb hv ig pa) p.
Proof. intros Hg. unfold __init__. simpl. now rewrite Hg. Qed.

Lemma latest_not_required self pv p :
  parse (host_version self) = Some pv ->
  (os_to_kernel (str_of_int (major pv)) <? sequoia)%Z = true ->
  _get_latest_metallib env self p = (Return (set_success true self), p).
Proof.
  intros Hp Hg. unfold _get_latest_metallib, version_parse.
  rewrite Hp. unfold bind, ret. now rewrite Hg.
Qed.

Lemma init_not_required c hb hv ig pa pv p :
  parse hv = Some pv ->
  (os_to_kernel (str_of_int (major pv)) <? sequoia)%Z = true ->
  __init__ env c hb hv ig pa p
  = (Return (set_success true (new_object c hb hv ig pa)), p).
Proof.
  intros Hp Hg.
  destruct (installer_environment c || recovery_environment c) eqn:He.
  - now apply init_guarded.
  - rewrite (init_unguarded _ _ _ _ _ _ He).
    now apply latest_not_required with (pv := pv).
Qed.

(** *** The installer *)

Lemma install_skipped self metallib p :
  passive self = true \/ success self = false
  \/ metallib_already_installed self = true ->
  install_metallib env self metallib p = (Return true, p).
Proof.
  intros H. unfold install_metallib.
  destruct (passive self); [reflexivity|].
  destruct H as [H | [H | H]]; [discriminate | |]; rewrite H.
  - reflexivity.
  - now rewrite orb_true_r.
Qed.

Lemma install_runs self metallib p :
  passive self = false -> success self = true ->
  metallib_already_installed self = false ->
  install_metallib env self metallib p
  = (Return (fst (run_as_root env (trace p) (installer_argv self metallib)
                    (install_root p)) =? 0)%Z,
     {| METALLIB_ASSET_LIST := METALLIB_ASSET_LIST p;
        install_root :=
          snd (run_as_root env (trace p) (installer_argv self metallib)
                 (install_root p));
        trace := trace p ++ [RunAsRoot (installer_argv self metallib)] |}).
Proof.
  intros Hp Hs Ha. unfold install_metallib. rewrite Hp, Hs, Ha. simpl.
  unfold bind, subprocess_run_as_root.
  destruct (run_as_root env (trace p) (installer_argv self metallib)
              (install_root p)) as [rc root]; simpl.
  now destruct (rc =? 0)%Z.
Qed.

Lemma install_no_fetch_or_probe self metallib p :
  fetches_and_probes (trace (snd (install_metallib env self metallib p)))
  = fetches_and_probes (trace p).
Proof.
  unfold install_metallib.
  destruct (passive self); [reflexivity|].
  destruct (negb (success self) || metallib_already_installed self);
    [reflexivity|].
  unfold bind, subprocess_run_as_root.
  destruct (run_as_root env (trace p) (installer_argv self metallib)
              (install_root p)) as [rc root]; simpl.
  destruct (rc =? 0)%Z; simpl; unfold fetches_and_probes;
    rewrite filter_app; simpl; apply app_nil_r.
Qed.

(** C3. A host constructed with [installer_environment] or
    [recovery_environment] set: the constructor reports success and
    leaves the process as it found it, so neither the manifest endpoint
    is called nor the install root probed; no later call to the installer
    of that object fetches or probes either. *)
Theorem environment_guard_skips_resolution c hb hv ig pa p :
  installer_environment c = true \/ recovery_environment c = true ->
  exists self,
    __init__ env c hb hv ig pa p = (Return self, p)
    /\ success self = true
    /\ forall metallib q,
         fetches_and_probes
           (trace (snd (install_metallib env self metallib q)))
         = fetches_and_probes (trace q).
Proof.
  intros Hg. eexists. split; [|split].
  - apply init_guarded. destruct Hg as [-> | ->];
      [reflexivity | apply orb_true_r].
  - reflexivity.
  - intros. apply install_no_fetch_or_probe.
Qed.

(** C4. A host whose major version maps to a generation below
    [sequoia]: the constructor reports success and leaves the process as
    it found it, so the manifest endpoint is not called. *)
Theorem below_threshold_not_required c hb hv ig pa pv p :
  parse hv = Some pv ->
  (os_to_kernel (str_of_int (major pv)) < sequoia)%Z ->
  exists self,
    __init__ env c hb hv ig pa p = (Return self, p)
    /\ success self = true.
Proof.
  intros Hp Hlt. eexists. split.
  - apply init_not_required with (pv := pv); [exact Hp|].
    now apply Z.ltb_lt.
  - reflexivity.
Qed.

(** C8. In passive mode, or when resolution did not succeed, or when the
    package is already installed, [install_metallib] returns [True] and
    leaves the process as it found it (no installer run); so does any
    number of such calls in a row. *)
Theorem install_skipped_is_noop self p :
  passive self = true \/ success self = false
  \/ metallib_already_installed self = true ->
  (forall metallib,
      install_metallib env self metallib p = (Return true, p))
  /\ (forall metallibs,
        call_each (install_metallib env self) metallibs p
        = (Return (map (fun _ => true) metallibs), p)).
Proof.
  intros H. split.
  - intros. now apply install_skipped.
  - intros. apply call_each_unchanged. intros. now apply install_skipped.
Qed.

(** C10. An object whose construction ended at the environment guard or
    at the not-required gate has [success] set, no URL and is not marked
    installed; called with [passive] false, its [install_metallib] runs
    [/usr/sbin/installer -pkg <path> -target /] as root, on the given
    path or else the default one, and returns whether the exit status
    was 0. *)
Theorem install_runs_after_skipped_resolution c hb hv ig p self p' :
  installer_environment c || recovery_environment c = true
  \/ (exists pv, parse hv = Some pv
                 /\ (os_to_kernel (str_of_int (major pv)) < sequoia)%Z) ->
  __init__ env c hb hv ig false p = (Return self, p') ->
  success self = true
  /\ metallib_url self = ""
  /\ metallib_already_installed self = false
  /\ forall metallib q,
       let argv :=
         [ "/usr/sbin/installer"; "-pkg";
           match metallib with
           | Some (String a s) => String a s
           | _ => metallib_download_path c
           end;
           "-target"; "/" ] in
       exists returncode root,
         run_as_root env (trace q) argv (install_root q)
         = (returncode, root)
         /\ install_metallib env self metallib q
            = (Return (returncode =? 0)%Z,
               {| METALLIB_ASSET_LIST := METALLIB_ASSET_LIST q;
                  install_root := root;
                  trace := trace q ++ [RunAsRoot argv] |}).
Proof.
  intros Hskip Hinit.
  assert (Hself : self = set_success true (new_object c hb hv ig false)).
  { destruct Hskip as [Hg | [pv [Hp Hlt]]].
    - rewrite (init_guarded _ _ _ _ _ _ Hg) in Hinit. congruence.
    - apply Z.ltb_lt in Hlt.
      rewrite (init_not_required _ _ _ _ _ _ _ Hp Hlt) in Hinit.
      congruence. }
  subst self. repeat split.
  intros metallib q argv.
  assert (Hargv : installer_argv
                    (set_success true (new_object c hb hv ig false))
                    metallib = argv).
  { unfold installer_argv, argv. simpl.
    destruct metallib as [[|a s]|]; reflexivity. }
  rewrite install_runs by reflexivity. rewrite Hargv.
  destruct (run_as_root env (trace q) argv (install_root q))
    as [rc root] eqn:Hrun.
  exists rc, root. split; reflexivity.
Qed.

(** *** The manifest cache *)

Lemma fetch_cached self p manifest :
  METALLIB_ASSET_LIST p = Some manifest -> manifest <> [] ->
  _get_remote_metallibs env self p = (Return (Some manifest), p).
Proof.
  intros Hc Hne. unfold _get_remote_metallibs, bind, get_asset_list.
  rewrite Hc. destruct manifest; [congruence | reflexivity].
Qed.

Lemma fetch_populates self p manifest p1 :
  _get_remote_metallibs env self p = (Return (Some manifest), p1) ->
  manifest <> [] ->
  METALLIB_ASSET_LIST p1 = Some manifest.
Proof.
  unfold _get_remote_metallibs, bind, get_asset_list, network_get.
  intros H Hne.
  destruct (opt_list_truthy (METALLIB_ASSET_LIST p)).
  - unfold ret in H. congruence.
  - destruct (http_get env (trace p)) as [[| | |]|code [m|]];
      unfold ret, raise in H; try discriminate;
      destruct (negb (code =? 200)%Z); unfold ret, raise in H;
      try discriminate.
    unfold set_asset_list in H. injection H as <- <-. reflexivity.
Qed.

(** *** The local probe *)

Lemma first_matching_folder_truthy match_ check_version children path :
  first_matching_folder match_ check_version children = Some path ->
  str_truthy path = true.
Proof.
  induction children as [|[name is_dir] rest IH]; simpl; [discriminate|].
  destruct (negb is_dir); [exact IH|].
  destruct check_version.
  - destruct (opt_str_truthy match_ && _); [exact IH|].
    intros [= <-]. reflexivity.
  - destruct (opt_str_truthy match_ && _); [exact IH|].
    intros [= <-]. reflexivity.
Qed.

(** Without a match argument the probe takes the first child that is a
    directory, whatever its name. *)
Lemma first_matching_folder_no_match check_version children :
  first_matching_folder None check_version children
  = option_map (fun child => folder_path (fst child))
      (find (fun child => snd child) children).
Proof.
  induction children as [|[name is_dir] rest IH]; simpl; [reflexivity|].
  destruct is_dir; simpl; [|exact IH].
  now destruct check_version.
Qed.

Lemma probe_keeps_cache_and_fetches self match_ check_version p :
  let p1 := snd (_local_metallib_installed self match_ check_version p) in
  METALLIB_ASSET_LIST p1 = METALLIB_ASSET_LIST p
  /\ fetches (trace p1) = fetches (trace p).
Proof.
  unfold _local_metallib_installed, bind, path_exists, path_iterdir.
  destruct (ignore_installed self); [now split|].
  destruct (install_root p) eqn:Hroot; simpl; rewrite ?Hroot; simpl;
    split; try reflexivity;
    unfold fetches; rewrite ?filter_app; simpl; now rewrite ?app_nil_r.
Qed.

Lemma probe_truthy self match_ check_version p path p1 :
  _local_metallib_installed self match_ check_version p
  = (Return (Some path), p1) ->
  str_truthy path = true.
Proof.
  unfold _local_metallib_installed, bind, path_exists, path_iterdir.
  destruct (ignore_installed self); [discriminate|].
  destruct (install_root p) as [| |children] eqn:Hroot; simpl;
    rewrite ?Hroot; try discriminate.
  unfold ret. intros [= H _].
  now apply first_matching_folder_truthy in H.
Qed.

Lemma probe_of_dir self match_ check_version p children :
  ignore_installed self = false ->
  install_root p = Dir children ->
  _local_metallib_installed self match_ check_version p
  = (Return (first_matching_folder match_ check_version children),
     record (FsIterdir METALLIB_INSTALL_PATH)
       (record (FsExists METALLIB_INSTALL_PATH) p)).
Proof.
  intros Hig Hroot.
  unfold _local_metallib_installed, bind, path_exists, path_iterdir.
  rewrite Hig, Hroot. simpl. rewrite Hroot. reflexivity.
Qed.

Lemma latest_already_installed self pv p path p1 :
  parse (host_version self) = Some pv ->
  (os_to_kernel (str_of_int (major pv)) <? sequoia)%Z = false ->
  _local_metallib_installed self None false p = (Return (Some path), p1) ->
  _get_latest_metallib env self p
  = (Return (set_success true
               (set_already_installed true
                  (set_installed_path (Some path) self))), p1).
Proof.
  intros Hp Hg Hprobe. unfold _get_latest_metallib, version_parse.
  rewrite Hp. unfold bind at 1. unfold ret at 1. rewrite Hg.
  rewrite (bind_return _ _ _ _ _ Hprobe). simpl.
  now rewrite (probe_truthy _ _ _ _ _ _ Hprobe).
Qed.

(** C7. When the probe made during resolution returns a path, the
    constructor reports already-installed with [success] set, the
    manifest endpoint is not called and the cache is left alone, and
    [retrieve_download] on the object returns [None] whatever the
    override path. *)
Theorem already_installed_short_circuits c hb hv ig pa pv p path p1 :
  installer_environment c || recovery_environment c = false ->
  parse hv = Some pv ->
  (sequoia <= os_to_kernel (str_of_int (major pv)))%Z ->
  _local_metallib_installed (new_object c hb hv ig pa) None false p
  = (Return (Some path), p1) ->
  exists self,
    __init__ env c hb hv ig pa p = (Return self, p1)
    /\ metallib_already_installed self = true
    /\ success self = true
    /\ metallib_installed_path self = Some path
    /\ fetches (trace p1) = fetches (trace p)
    /\ METALLIB_ASSET_LIST p1 = METALLIB_ASSET_LIST p
    /\ forall override_path, retrieve_download self override_path = None.
Proof.
  intros Hg Hp Hge Hprobe. apply Z.ltb_ge in Hge.
  eexists. split.
  - rewrite (init_unguarded _ _ _ _ _ _ Hg).
    apply latest_already_installed with (pv := pv); eassumption.
  - pose proof (probe_keeps_cache_and_fetches
                  (new_object c hb hv ig pa) None false p) as Hk.
    rewrite Hprobe in Hk. simpl in Hk. destruct Hk as [Hc Hf].
    repeat split; assumption.
Qed.

(** C9. Resolution calls the probe without a match argument: for a host
    not constructed with [ignore_installed], when the install root is a
    directory with at least one child directory, the constructor reports
    already-installed, with the path of the first child directory,
    whatever that directory is called and whatever the host's build and
    version are. *)
Theorem any_subdirectory_counts_as_installed
    c hb hv pa pv p children name :
  installer_environment c || recovery_environment c = false ->
  parse hv = Some pv ->
  (sequoia <= os_to_kernel (str_of_int (major pv)))%Z ->
  install_root p = Dir children ->
  In (name, true) children ->
  exists self p1 first,
    __init__ env c hb hv false pa p = (Return self, p1)
    /\ metallib_already_installed self = true
    /\ success self = true
    /\ find (fun child => snd child) children = Some (first, true)
    /\ metallib_installed_path self
       = Some (METALLIB_INSTALL_PATH ++ "/" ++ first).
Proof.
  intros Hg Hp Hge Hroot Hin.
  destruct (find (fun child => snd child) children) as [[first d]|] eqn:Hf.
  2:{ exfalso. apply (find_none _ _ Hf) in Hin. discriminate. }
  assert (d = true) as -> by (apply find_some in Hf; apply Hf).
  pose proof (probe_of_dir (new_object c hb hv false pa) None false p
                children eq_refl Hroot) as Hprobe.
  rewrite first_matching_folder_no_match, Hf in Hprobe. simpl in Hprobe.
  apply Z.ltb_ge in Hge.
  eexists _, _, first. split.
  - rewrite (init_unguarded _ _ _ _ _ _ Hg).
    apply latest_already_installed with (pv := pv); eassumption.
  - repeat split.
Qed.

(** *** The cache over a whole process *)

Lemma closest_match_loop_state pv manifest self p :
  snd (closest_match_loop pv manifest self p) = p.
Proof.
  induction manifest as [|m rest IH]; simpl; [reflexivity|].
  unfold bind, version_parse.
  destruct (parse (version m)) as [v|]; [|reflexivity].
  unfold ret at 1.
  destruct (version_gt v pv); [exact IH|].
  destruct (negb (major v =? major pv)%N); [exact IH|reflexivity].
Qed.

Lemma bind_state {A B : Type} (m : M A) (k : A -> M B) p :
  snd (bind m k p)
  = match fst (m p) with
    | Return a => snd (k a (snd (m p)))
    | Raise _ => snd (m p)
    end.
Proof. unfold bind. now destruct (m p) as [[a|e] p']. Qed.

(** While the cache holds a non-empty manifest, resolution leaves it in
    place and does not call the endpoint. *)
Lemma latest_keeps_cache self p manifest :
  METALLIB_ASSET_LIST p = Some manifest -> manifest <> [] ->
  METALLIB_ASSET_LIST (snd (_get_latest_metallib env self p)) = Some manifest
  /\ fetches (trace (snd (_get_latest_metallib env self p)))
     = fetches (trace p).
Proof.
  intros Hc Hne. unfold _get_latest_metallib.
  rewrite bind_state. unfold version_parse.
  destruct (parse (host_version self)) as [pv|]; [|now split].
  cbn [ret fst snd].
  destruct (os_to_kernel (str_of_int (major pv)) <? sequoia)%Z; [now split|].
  rewrite bind_state.
  destruct (probe_keeps_cache_and_fetches self None false p) as [Hc1 Hf1].
  destruct (_local_metallib_installed self None false p)
    as [[installed|e] p1]; cbn [fst snd] in *;
    [|split; congruence].
  destruct (opt_str_truthy
              (metallib_installed_path (set_installed_path installed self)));
    [split; cbn; congruence|].
  rewrite bind_state.
  rewrite (fetch_cached (set_installed_path installed self) p1 manifest)
    by congruence.
  cbn [fst snd].
  destruct (negb (str_truthy _)); [|split; cbn; congruence].
  rewrite bind_state, closest_match_loop_state.
  destruct (fst (closest_match_loop _ _ _ p1)) as [self'|e];
    [|split; congruence].
  destruct (negb (str_truthy (metallib_closest_match_url self')));
    split; cbn; congruence.
Qed.

Lemma install_keeps_cache self metallib p :
  METALLIB_ASSET_LIST (snd (install_metallib env self metallib p))
  = METALLIB_ASSET_LIST p.
Proof.
  unfold install_metallib.
  destruct (passive self); [reflexivity|].
  destruct (negb (success self) || metallib_already_installed self);
    [reflexivity|].
  unfold bind, subprocess_run_as_root.
  destruct (run_as_root env (trace p) (installer_argv self metallib)
              (install_root p)) as [rc root]; simpl.
  now destruct (rc =? 0)%Z.
Qed.

Lemma install_no_fetch self metallib p :
  fetches (trace (snd (install_metallib env self metallib p)))
  = fetches (trace p).
Proof.
  unfold install_metallib.
  destruct (passive self); [reflexivity|].
  destruct (negb (success self) || metallib_already_installed self);
    [reflexivity|].
  unfold bind, subprocess_run_as_root.
  destruct (run_as_root env (trace p) (installer_argv self metallib)
              (install_root p)) as [rc root]; simpl.
  destruct (rc =? 0)%Z; simpl; unfold fetches;
    rewrite filter_app; simpl; apply app_nil_r.
Qed.

Lemma call_keeps_cache call p manifest :
  METALLIB_ASSET_LIST p = Some manifest -> manifest <> [] ->
  METALLIB_ASSET_LIST (after_call env call p) = Some manifest
  /\ fetches (trace (after_call env call p)) = fetches (trace p).
Proof.
  intros Hc Hne. destruct call as [c hb hv ig pa|self|self m cv|self o|self m];
    simpl.
  - unfold __init__. cbv zeta.
    destruct (installer_environment _ || recovery_environment _);
      [now split|].
    now apply latest_keeps_cache.
  - rewrite (fetch_cached self p manifest Hc Hne). now split.
  - destruct (probe_keeps_cache_and_fetches self m cv p) as [H1 H2].
    split; congruence.
  - now split.
  - rewrite install_keeps_cache, install_no_fetch. now split.
Qed.

Lemma calls_keep_cache calls p manifest :
  METALLIB_ASSET_LIST p = Some manifest -> manifest <> [] ->
  METALLIB_ASSET_LIST (after_calls env calls p) = Some manifest
  /\ fetches (trace (after_calls env calls p)) = fetches (trace p).
Proof.
  intros Hc Hne. revert p Hc.
  induction calls as [|call rest IH]; intros p Hc; simpl; [now split|].
  destruct (call_keeps_cache call p manifest Hc Hne) as [H1 H2].
  destruct (IH _ H1) as [H3 H4]. split; congruence.
Qed.

(** C5, as amended.  A fetch that returns a non-empty manifest leaves it
    in [METALLIB_ASSET_LIST]; and from a process whose
    [METALLIB_ASSET_LIST] holds a non-empty manifest, whatever calls are
    made next (constructions, fetches, probes, installations), the
    manifest stays in place, the endpoint is not called again, and every
    fetch, by whichever object, returns the cached manifest and leaves the
    process as it found it. *)
Theorem nonempty_manifest_not_refetched manifest :
  manifest <> [] ->
  (forall self p p1,
      _get_remote_metallibs env self p = (Return (Some manifest), p1) ->
      METALLIB_ASSET_LIST p1 = Some manifest)
  /\ (forall q calls,
        METALLIB_ASSET_LIST q = Some manifest ->
        METALLIB_ASSET_LIST (after_calls env calls q) = Some manifest
        /\ fetches (trace (after_calls env calls q)) = fetches (trace q)
        /\ forall self,
             _get_remote_metallibs env self (after_calls env calls q)
             = (Return (Some manifest), after_calls env calls q)).
Proof.
  intros Hne. split.
  - intros self p p1 H. now apply fetch_populates with (self := self) (p := p).
  - intros q calls Hq.
    destruct (calls_keep_cache calls q manifest Hq Hne) as [H1 H2].
    repeat split; try assumption.
    intros self. now apply fetch_cached.
Qed.

(** *** The resolver *)

Lemma exact_build_loop_no_match manifest self :
  Forall (fun m => build m <> host_build self) manifest ->
  exact_build_loop manifest self = self.
Proof.
  induction 1 as [|m rest Hm _ IH]; simpl; [reflexivity|].
  apply String.eqb_neq in Hm. now rewrite Hm.
Qed.

Lemma exact_build_loop_first before entry after self :
  Forall (fun m => build m <> host_build self) before ->
  build entry = host_build self ->
  exact_build_loop (before ++ entry :: after)%list self
  = set_is_exactly_match true
      (set_url_fields (url entry) (build entry) (version entry) self).
Proof.
  intros Hb He. induction Hb as [|m rest Hm _ IH]; simpl.
  - apply String.eqb_eq in He. now rewrite He.
  - apply String.eqb_neq in Hm. now rewrite Hm.
Qed.

(** Whatever the manifest, the first loop leaves the object alone or
    assigns the [metallib_url*] attributes and the exact-match flag. *)
Lemma exact_build_loop_cases manifest self :
  exact_build_loop manifest self = self
  \/ exists entry,
       In entry manifest /\ build entry = host_build self
       /\ exact_build_loop manifest self
          = set_is_exactly_match true
              (set_url_fields (url entry) (build entry) (version entry)
                 self).
Proof.
  induction manifest as [|m rest IH]; simpl; [now left|].
  destruct (build m =? host_build self)%string eqn:E.
  - right. exists m. apply String.eqb_eq in E. auto.
  - destruct IH as [IH | [entry [Hin [Hb IH]]]]; [now left|].
    right. exists entry. auto.
Qed.

Lemma closest_filters_agree pv v :
  (if version_gt v pv then false
   else if negb (major v =? major pv)%N then false else true)
  = version_le v pv && (major v =? major pv)%N.
Proof.
  rewrite version_le_not_gt.
  destruct (version_gt v pv); simpl; [reflexivity|].
  now destruct (major v =? major pv)%N.
Qed.

(** On a manifest whose versions all parse, the second loop assigns the
    [metallib_closest_match_url*] attributes from the first entry that
    passes both filters, and nothing when there is none. *)
Lemma closest_match_loop_find pv manifest self p :
  Forall (fun m => parse (version m) <> None) manifest ->
  closest_match_loop pv manifest self p
  = (Return match find (closest_ok pv) manifest with
            | Some entry =>
                set_closest_fields (url entry) (build entry)
                  (version entry) self
            | None => self
            end, p).
Proof.
  induction 1 as [|m rest Hm _ IH]; simpl; [reflexivity|].
  unfold closest_ok at 1. unfold version_parse, bind.
  destruct (parse (version m)) as [v|]; [|congruence].
  unfold ret at 1. rewrite <- closest_filters_agree.
  destruct (version_gt v pv); [exact IH|].
  destruct (negb (major v =? major pv)%N); [exact IH|].
  reflexivity.
Qed.

Lemma fetch_reads_constants_only a b p :
  constants a = constants b ->
  _get_remote_metallibs env a p = _get_remote_metallibs env b p.
Proof. intros H. unfold _get_remote_metallibs. now rewrite H. Qed.

Lemma latest_resolves self pv p p1 manifest p2 :
  parse (host_version self) = Some pv ->
  (os_to_kernel (str_of_int (major pv)) <? sequoia)%Z = false ->
  _local_metallib_installed self None false p = (Return None, p1) ->
  _get_remote_metallibs env self p1 = (Return (Some manifest), p2) ->
  _get_latest_metallib env self p
  = resolve_with pv manifest (set_installed_path None self) p2.
Proof.
  intros Hp Hg Hprobe Hfetch. unfold _get_latest_metallib, version_parse.
  rewrite Hp. unfold bind at 1. unfold ret at 1. rewrite Hg.
  rewrite (bind_return _ _ _ _ _ Hprobe). cbv beta zeta.
  change (opt_str_truthy
            (metallib_installed_path (set_installed_path None self)))
    with false.
  cbv iota.
  rewrite (fetch_reads_constants_only self (set_installed_path None self))
    in Hfetch by reflexivity.
  rewrite (bind_return _ _ _ _ _ Hfetch). reflexivity.
Qed.

Lemma init_resolves c hb hv ig pa pv p p1 manifest p2 :
  installer_environment c || recovery_environment c = false ->
  parse hv = Some pv ->
  (sequoia <= os_to_kernel (str_of_int (major pv)))%Z ->
  _local_metallib_installed (new_object c hb hv ig pa) None false p
  = (Return None, p1) ->
  _get_remote_metallibs env (new_object c hb hv ig pa) p1
  = (Return (Some manifest), p2) ->
  __init__ env c hb hv ig pa p
  = resolve_with pv manifest
      (set_installed_path None (new_object c hb hv ig pa)) p2.
Proof.
  intros Hg Hp Hge Hprobe Hfetch. apply Z.ltb_ge in Hge.
  rewrite (init_unguarded _ _ _ _ _ _ Hg).
  now apply latest_resolves with (p1 := p1).
Qed.

Lemma entry_eta (entry : ManifestEntry) :
  {| build := build entry; version := version entry; url := url entry |}
  = entry.
Proof. now destruct entry. Qed.

Lemma str_truthy_false s : str_truthy s = false <-> s = "".
Proof. destruct s; simpl; split; congruence. Qed.

Lemma str_truthy_true s : str_truthy s = true <-> s <> "".
Proof. destruct s; simpl; split; congruence. Qed.

(** The closest-match part of [resolve_with], entered with no closest
    match assigned yet. *)
Lemma closest_part pv manifest self p :
  Forall (fun m => parse (version m) <> None) manifest ->
  closest_entry self = no_entry ->
  exists self',
    (self' <- closest_match_loop pv manifest self ;;
     if negb (str_truthy (metallib_closest_match_url self')) then
       ret (set_error_msg
              ("No suitable metallib found for " ++ host_build self')
              self')
     else
       ret (set_success true
              (set_url_fields
                 (metallib_closest_match_url self')
                 (metallib_closest_match_url_build self')
                 (metallib_closest_match_url_version self')
                 self'))) p
    = (Return self', p)
    /\ metallib_url_is_exactly_match self'
       = metallib_url_is_exactly_match self
    /\ match find (closest_ok pv) manifest with
       | Some entry =>
           closest_entry self' = entry
           /\ (url entry <> "" ->
               selected_entry self' = entry /\ success self' = true)
           /\ (url entry = "" ->
               selected_entry self' = selected_entry self
               /\ success self' = success self)
       | None =>
           closest_entry self' = no_entry
           /\ selected_entry self' = selected_entry self
           /\ success self' = success self
           /\ error_msg self'
              = "No suitable metallib found for " ++ host_build self
       end.
Proof.
  intros Hparse Hinit.
  rewrite (bind_return _ _ _ _ _
             (closest_match_loop_find pv manifest self p Hparse)).
  destruct (find (closest_ok pv) manifest) as [entry|].
  - cbn [metallib_closest_match_url set_closest_fields].
    destruct (str_truthy (url entry)) eqn:Hu; cbn [negb];
      eexists; (split; [reflexivity|]); (split; [reflexivity|]).
    + apply str_truthy_true in Hu.
      unfold closest_entry, selected_entry; cbn.
      rewrite entry_eta. repeat split; congruence.
    + apply str_truthy_false in Hu.
      unfold closest_entry, selected_entry; cbn.
      rewrite entry_eta. repeat split; congruence.
  - assert (Hu : metallib_closest_match_url self = "")
      by (now injection Hinit).
    rewrite Hu. cbn [str_truthy negb].
    eexists. split; [reflexivity|]. split; [reflexivity|].
    repeat split. exact Hinit.
Qed.

(** C2, as amended.  When the first entry carrying the host's build has
    a non-empty URL, that entry is the resolved one, with the exact-match
    flag and [success] set, whatever the other entries hold (their
    versions are not even parsed); the closest-match attributes are left
    unassigned. *)
Theorem exact_build_match_wins
    c hb hv ig pa pv p p1 before entry after p2 :
  installer_environment c || recovery_environment c = false ->
  parse hv = Some pv ->
  (sequoia <= os_to_kernel (str_of_int (major pv)))%Z ->
  _local_metallib_installed (new_object c hb hv ig pa) None false p
  = (Return None, p1) ->
  _get_remote_metallibs env (new_object c hb hv ig pa) p1
  = (Return (Some (before ++ entry :: after)%list), p2) ->
  Forall (fun m => build m <> hb) before ->
  build entry = hb ->
  url entry <> "" ->
  exists self,
    __init__ env c hb hv ig pa p = (Return self, p2)
    /\ selected_entry self = entry
    /\ metallib_url_is_exactly_match self = true
    /\ success self = true
    /\ closest_entry self = no_entry.
Proof.
  intros Hg Hp Hge Hprobe Hfetch Hbefore Hb Hu.
  rewrite (init_resolves _ _ _ _ _ _ _ _ _ _ Hg Hp Hge Hprobe Hfetch).
  unfold resolve_with. cbv zeta.
  rewrite exact_build_loop_first by assumption.
  cbn [metallib_url set_is_exactly_match set_url_fields].
  apply str_truthy_true in Hu. rewrite Hu. cbn [negb].
  eexists. split; [reflexivity|].
  unfold selected_entry. cbn. rewrite entry_eta. repeat split.
Qed.

Lemma find_none_of_all_false {A : Type} (f : A -> bool) (l : list A) :
  Forall (fun a => f a = false) l -> find f l = None.
Proof.
  induction 1 as [|a rest Ha _ IH]; simpl; [reflexivity|].
  now rewrite Ha.
Qed.

(** C6, as amended.  On a fetched manifest whose versions all parse, in
    which no entry has the host's build and no entry passes both
    closest-match filters, the constructor ends with [success] false,
    nothing resolved, and the error message
    [No suitable metallib found for <host build>]. *)
Theorem no_suitable_metallib c hb hv ig pa pv p p1 manifest p2 :
  installer_environment c || recovery_environment c = false ->
  parse hv = Some pv ->
  (sequoia <= os_to_kernel (str_of_int (major pv)))%Z ->
  _local_metallib_installed (new_object c hb hv ig pa) None false p
  = (Return None, p1) ->
  _get_remote_metallibs env (new_object c hb hv ig pa) p1
  = (Return (Some manifest), p2) ->
  Forall (fun m => parse (version m) <> None) manifest ->
  Forall (fun m => build m <> hb) manifest ->
  Forall (fun m => closest_ok pv m = false) manifest ->
  exists self,
    __init__ env c hb hv ig pa p = (Return self, p2)
    /\ success self = false
    /\ error_msg self = "No suitable metallib found for " ++ hb
    /\ selected_entry self = no_entry
    /\ closest_entry self = no_entry.
Proof.
  intros Hg Hp Hge Hprobe Hfetch Hparse Hbuild Hnone.
  rewrite (init_resolves _ _ _ _ _ _ _ _ _ _ Hg Hp Hge Hprobe Hfetch).
  unfold resolve_with. cbv zeta.
  rewrite exact_build_loop_no_match by exact Hbuild.
  change (negb (str_truthy
                  (metallib_url
                     (set_installed_path None
                        (new_object c hb hv ig pa))))) with true.
  cbv iota.
  match goal with
  | |- context [closest_match_loop pv manifest ?s] =>
      destruct (closest_part pv manifest s p2 Hparse eq_refl)
        as [self' [Hrun [_ Hfind]]]
  end.
  rewrite (find_none_of_all_false _ _ Hnone) in Hfind.
  destruct Hfind as [H1 [H2 [H3 H4]]].
  exists self'. split; [exact Hrun|]. repeat split; assumption.
Qed.

End Properties.

(** ** Runs on the sample data *)

Module Runs.

Import Sample.

(** The spec's closest-match example, moved to macOS 15: with entries
    26.0, 15.2, 15.1 and 15.0 and a host on 15.1.1 whose build is not
    listed, 15.1 is resolved. *)
Example closest_match_run :
  exists self,
    __init__ (serving manifest) consts "24B91" "15.1.1" false false fresh
    = (Return self, fetched manifest)
    /\ selected_entry self = entry_15_1
    /\ closest_entry self = entry_15_1
    /\ metallib_url_is_exactly_match self = false
    /\ success self = true.
Proof. eexists. split; [vm_compute; reflexivity|]. repeat split. Qed.

(** A host on 15.1 with a listed build gets its own entry although 15.2
    and 26.0 are listed before it. *)
Example exact_match_run :
  exists self,
    __init__ (serving manifest) consts "24B83" "15.1" false false fresh
    = (Return self, fetched manifest)
    /\ selected_entry self = entry_15_1
    /\ closest_entry self = no_entry
    /\ metallib_url_is_exactly_match self = true
    /\ success self = true.
Proof. eexists. split; [vm_compute; reflexivity|]. repeat split. Qed.

(** A host on macOS 14 is below the threshold. *)
Example not_required_run :
  exists self,
    __init__ (serving manifest) consts "23G80" "14.6" false false fresh
    = (Return self, fresh)
    /\ success self = true
    /\ retrieve_download self "" = None.
Proof. eexists. split; [vm_compute; reflexivity|]. repeat split. Qed.

(** A resolved object yields the download to the default path, or to the
    override path. *)
Example retrieve_download_run :
  exists self p,
    __init__ (serving manifest) consts "24B83" "15.1" false false fresh
    = (Return self, p)
    /\ retrieve_download self ""
       = Some {| download_url := "https://example.org/15.1-24B83.pkg";
                 download_path := "/tmp/MetallibSupportPkg.pkg" |}
    /\ retrieve_download self "/Users/Shared/m.pkg"
       = Some {| download_url := "https://example.org/15.1-24B83.pkg";
                 download_path := "/Users/Shared/m.pkg" |}.
Proof. eexists _, _. split; [vm_compute; reflexivity|]. split; reflexivity. Qed.

(** The probe with a match argument: by build suffix, or by version
    substring. *)
Example probe_with_match_run :
  first_matching_folder (Some "24B83") false
    [("15.0-24A335", true); ("15.1-24B83", true)]
  = Some (METALLIB_INSTALL_PATH ++ "/15.1-24B83")
  /\ first_matching_folder (Some "15.0") true
       [("15.0-24A335", true); ("15.1-24B83", true)]
     = Some (METALLIB_INSTALL_PATH ++ "/15.0-24A335")
  /\ first_matching_folder (Some "24C101") false
       [("15.0-24A335", true); ("15.1-24B83", true)]
     = None.
Proof. repeat split. Qed.

End Runs.

(** ** The claims on the sample data *)

(** C3 on a host constructed in the installer environment, with a folder
    at the install root. *)
Lemma environment_guard_skips_resolution_witness :
  exists self,
    __init__ (Sample.serving Sample.manifest) Sample.installer_consts
      "24B83" "15.1" false false Sample.with_folder
    = (Return self, Sample.with_folder)
    /\ success self = true
    /\ forall metallib q,
         fetches_and_probes
           (trace (snd (install_metallib (Sample.serving Sample.manifest)
                          self metallib q)))
         = fetches_and_probes (trace q).
Proof.
  apply (environment_guard_skips_resolution
           (PV := release_version) (OS := xnu_os_data)
           (Sample.serving Sample.manifest) Sample.installer_consts
           "24B83" "15.1" false false Sample.with_folder).
  left. reflexivity.
Defined.

(** C4 on a host on macOS 14.6. *)
Lemma below_threshold_not_required_witness :
  exists self,
    __init__ (Sample.serving Sample.manifest) Sample.consts
      "23G80" "14.6" false false Sample.fresh
    = (Return self, Sample.fresh)
    /\ success self = true.
Proof.
  apply (below_threshold_not_required
           (PV := release_version) (OS := xnu_os_data)
           (Sample.serving Sample.manifest) Sample.consts
           "23G80" "14.6" false false [14; 6]%N Sample.fresh).
  - reflexivity.
  - vm_compute. reflexivity.
Defined.

(** C8 on an object constructed in passive mode. *)
Lemma install_skipped_is_noop_witness :
  (forall metallib,
      install_metallib (Sample.serving Sample.manifest)
        (new_object Sample.consts "24B83" "15.1" false true) metallib
        Sample.fresh
      = (Return true, Sample.fresh))
  /\ (forall metallibs,
        call_each
          (install_metallib (Sample.serving Sample.manifest)
             (new_object Sample.consts "24B83" "15.1" false true))
          metallibs Sample.fresh
        = (Return (map (fun _ => true) metallibs), Sample.fresh)).
Proof.
  apply (install_skipped_is_noop (Sample.serving Sample.manifest)
           (new_object Sample.consts "24B83" "15.1" false true)
           Sample.fresh).
  left. reflexivity.
Defined.

(** C10 on an object constructed in the installer environment: the
    installer is run on the default path. *)
Lemma install_runs_after_skipped_resolution_witness :
  success
    (set_success true
       (new_object Sample.installer_consts "24B83" "15.1" false false))
  = true
  /\ install_metallib (Sample.serving Sample.manifest)
       (set_success true
          (new_object Sample.installer_consts "24B83" "15.1" false false))
       None Sample.fresh
     = (Return true,
        {| METALLIB_ASSET_LIST := None;
           install_root := Absent;
           trace := [RunAsRoot ["/usr/sbin/installer"; "-pkg";
                                "/tmp/MetallibSupportPkg.pkg";
                                "-target"; "/"]] |}).
Proof.
  destruct (install_runs_after_skipped_resolution
           (PV := release_version) (OS := xnu_os_data)
              (Sample.serving Sample.manifest) Sample.installer_consts
              "24B83" "15.1" false Sample.fresh
              (set_success true
                 (new_object Sample.installer_consts "24B83" "15.1"
                    false false))
              Sample.fresh
              (or_introl eq_refl) eq_refl)
    as [Hs [_ [_ Hrun]]].
  split; [exact Hs|].
  destruct (Hrun None Sample.fresh) as [rc [root [Hr Hi]]].
  injection Hr as <- <-. exact Hi.
Defined.

(** C5, as amended, on the sample manifest. *)
Lemma nonempty_manifest_not_refetched_witness :
  (forall self p p1,
      _get_remote_metallibs (Sample.serving Sample.manifest) self p
      = (Return (Some Sample.manifest), p1) ->
      METALLIB_ASSET_LIST p1 = Some Sample.manifest)
  /\ (forall q calls,
        METALLIB_ASSET_LIST q = Some Sample.manifest ->
        METALLIB_ASSET_LIST
          (after_calls (Sample.serving Sample.manifest) calls q)
        = Some Sample.manifest
        /\ fetches
             (trace (after_calls (Sample.serving Sample.manifest) calls q))
           = fetches (trace q)
        /\ forall self,
             _get_remote_metallibs (Sample.serving Sample.manifest) self
               (after_calls (Sample.serving Sample.manifest) calls q)
             = (Return (Some Sample.manifest),
                after_calls (Sample.serving Sample.manifest) calls q)).
Proof.
  apply (nonempty_manifest_not_refetched
           (PV := release_version) (OS := xnu_os_data)
           (Sample.serving Sample.manifest) Sample.manifest).
  discriminate.
Defined.

(** C5, counterexample.  The endpoint answers 200 with an empty array: the
    first fetch assigns it to [METALLIB_ASSET_LIST], and the second fetch
    of the same process calls the endpoint again. *)
Lemma empty_manifest_fetched_twice :
  exists p1 p2,
    _get_remote_metallibs (Sample.serving [])
      (new_object Sample.consts "24B83" "15.1" false false) Sample.fresh
    = (Return (Some []), p1)
    /\ METALLIB_ASSET_LIST p1 = Some []
    /\ _get_remote_metallibs (Sample.serving [])
         (new_object Sample.consts "24B83" "15.1" false false) p1
       = (Return (Some []), p2)
    /\ fetches (trace p1) = [NetGet METALLIB_API_LINK "OCLP/2.4.0" 5]
    /\ fetches (trace p2)
       = [NetGet METALLIB_API_LINK "OCLP/2.4.0" 5;
          NetGet METALLIB_API_LINK "OCLP/2.4.0" 5].
Proof.
  eexists _, _. split; [vm_compute; reflexivity|].
  split; [reflexivity|]. split; [vm_compute; reflexivity|].
  split; reflexivity.
Qed.

(** C7 on a host on macOS 15.1 whose install root holds a folder. *)
Lemma already_installed_short_circuits_witness :
  exists self,
    __init__ (Sample.serving Sample.manifest) Sample.consts
      "24B83" "15.1" false false Sample.with_folder
    = (Return self,
       record (FsIterdir METALLIB_INSTALL_PATH)
         (record (FsExists METALLIB_INSTALL_PATH) Sample.with_folder))
    /\ metallib_already_installed self = true
    /\ success self = true
    /\ metallib_installed_path self
       = Some (METALLIB_INSTALL_PATH ++ "/14.6-23G80")
    /\ fetches
         (trace (record (FsIterdir METALLIB_INSTALL_PATH)
                   (record (FsExists METALLIB_INSTALL_PATH)
                      Sample.with_folder)))
       = fetches (trace Sample.with_folder)
    /\ METALLIB_ASSET_LIST
         (record (FsIterdir METALLIB_INSTALL_PATH)
            (record (FsExists METALLIB_INSTALL_PATH) Sample.with_folder))
       = METALLIB_ASSET_LIST Sample.with_folder
    /\ forall override_path, retrieve_download self override_path = None.
Proof.
  apply (already_installed_short_circuits
           (PV := release_version) (OS := xnu_os_data)
           (Sample.serving Sample.manifest) Sample.consts
           "24B83" "15.1" false false [15; 1]%N Sample.with_folder).
  - reflexivity.
  - reflexivity.
  - vm_compute. discriminate.
  - reflexivity.
Defined.

(** C9 on a host on macOS 15.1, build 24B83, whose install root holds the
    folder [14.6-23G80]. *)
Lemma any_subdirectory_counts_as_installed_witness :
  exists self p1 first,
    __init__ (Sample.serving Sample.manifest) Sample.consts
      "24B83" "15.1" false false Sample.with_folder
    = (Return self, p1)
    /\ metallib_already_installed self = true
    /\ success self = true
    /\ find (fun child => snd child)
         [(".DS_Store", false); ("14.6-23G80", true)]
       = Some (first, true)
    /\ metallib_installed_path self
       = Some (METALLIB_INSTALL_PATH ++ "/" ++ first).
Proof.
  apply (any_subdirectory_counts_as_installed
           (PV := release_version) (OS := xnu_os_data)
           (Sample.serving Sample.manifest) Sample.consts
           "24B83" "15.1" false [15; 1]%N Sample.with_folder
           [(".DS_Store", false); ("14.6-23G80", true)] "14.6-23G80").
  - reflexivity.
  - reflexivity.
  - vm_compute. discriminate.
  - reflexivity.
  - simpl. right. left. reflexivity.
Defined.

(** C2, as amended, on a host whose build is that of the 15.1 entry. *)
Lemma exact_build_match_wins_witness :
  exists self,
    __init__ (Sample.serving Sample.manifest) Sample.consts
      "24B83" "15.1" false false Sample.fresh
    = (Return self, Sample.fetched Sample.manifest)
    /\ selected_entry self = Sample.entry_15_1
    /\ metallib_url_is_exactly_match self = true
    /\ success self = true
    /\ closest_entry self = no_entry.
Proof.
  apply (exact_build_match_wins
           (PV := release_version) (OS := xnu_os_data)
           (Sample.serving Sample.manifest) Sample.consts
           "24B83" "15.1" false false [15; 1]%N Sample.fresh
           (record (FsExists METALLIB_INSTALL_PATH) Sample.fresh)
           [Sample.entry_26_0; Sample.entry_15_2] Sample.entry_15_1
           [Sample.entry_15_0] (Sample.fetched Sample.manifest)).
  - reflexivity.
  - reflexivity.
  - vm_compute. discriminate.
  - reflexivity.
  - reflexivity.
  - repeat constructor; discriminate.
  - reflexivity.
  - discriminate.
Defined.

(** C2, counterexample.  The entry of the host's build [24B91] has an
    empty URL: the flag says exact match, but the closest-match loop is
    run and the entry resolved is that of build [24A335]. *)
Lemma exact_build_without_url_passed_over :
  exists self,
    __init__ (Sample.serving Sample.manifest_missing_url) Sample.consts
      "24B91" "15.1.1" false false Sample.fresh
    = (Return self, Sample.fetched Sample.manifest_missing_url)
    /\ In Sample.entry_no_url Sample.manifest_missing_url
    /\ build Sample.entry_no_url = "24B91"
    /\ metallib_url_is_exactly_match self = true
    /\ selected_entry self = Sample.entry_15_0
    /\ selected_entry self <> Sample.entry_no_url
    /\ closest_entry self = Sample.entry_15_0.
Proof.
  eexists. split; [vm_compute; reflexivity|].
  repeat split; try reflexivity.
  - right. left. reflexivity.
  - discriminate.
Qed.

(** C6, as amended, on a host on macOS 15.1 and a manifest holding only a
    26.0 entry. *)
Lemma no_suitable_metallib_witness :
  exists self,
    __init__ (Sample.serving [Sample.entry_26_0]) Sample.consts
      "24B83" "15.1" false false Sample.fresh
    = (Return self, Sample.fetched [Sample.entry_26_0])
    /\ success self = false
    /\ error_msg self = "No suitable metallib found for " ++ "24B83"
    /\ selected_entry self = no_entry
    /\ closest_entry self = no_entry.
Proof.
  apply (no_suitable_metallib
           (PV := release_version) (OS := xnu_os_data)
           (Sample.serving [Sample.entry_26_0]) Sample.consts
           "24B83" "15.1" false false [15; 1]%N Sample.fresh
           (record (FsExists METALLIB_INSTALL_PATH) Sample.fresh)
           [Sample.entry_26_0] (Sample.fetched [Sample.entry_26_0])).
  - reflexivity.
  - reflexivity.
  - vm_compute. discriminate.
  - reflexivity.
  - reflexivity.
  - repeat constructor; discriminate.
  - repeat constructor; discriminate.
  - repeat constructor.
Defined.

(** * Further properties of the handler *)

Section Coverage.

Context {PV : PackagingVersion} {OS : OsData} {PL : PathLib}.
Variable env : Env.

(** *** How a resolution runs *)

(** [_get_latest_metallib], stage by stage. *)
Lemma latest_stages self p :
  _get_latest_metallib env self p
  = match parse (host_version self) with
    | None => (Raise (InvalidVersion (host_version self)), p)
    | Some pv =>
        if (os_to_kernel (str_of_int (major pv)) <? sequoia)%Z
        then (Return (set_success true self), p)
        else
          match _local_metallib_installed self None false p with
          | (Raise e, p1) => (Raise e, p1)
          | (Return installed, p1) =>
              if opt_str_truthy installed then
                (Return (set_success true
                           (set_already_installed true
                              (set_installed_path installed self))), p1)
              else
                match _get_remote_metallibs env self p1 with
                | (Raise e, p2) => (Raise e, p2)
                | (Return None, p2) =>
                    (Return (set_error_msg
                               "Failed to fetch Metallib manifest"
                               (set_installed_path installed self)), p2)
                | (Return (Some manifest), p2) =>
                    resolve_with pv manifest
                      (set_installed_path installed self) p2
                end
          end
    end.
Proof.
  unfold _get_latest_metallib, version_parse.
  destruct (parse (host_version self)) as [pv|]; [|reflexivity].
  unfold bind at 1. unfold ret at 1.
  destruct (os_to_kernel (str_of_int (major pv)) <? sequoia)%Z;
    [reflexivity|].
  unfold bind at 1.
  destruct (_local_metallib_installed self None false p)
    as [[installed|e] p1]; [|reflexivity].
  cbv beta zeta.
  change (metallib_installed_path (set_installed_path installed self))
    with installed.
  destruct (opt_str_truthy installed); [reflexivity|].
  unfold bind at 1.
  rewrite (fetch_reads_constants_only env
             (set_installed_path installed self) self p1 eq_refl).
  destruct (_get_remote_metallibs env self p1) as [[[manifest|]|e] p2];
    reflexivity.
Qed.

Lemma closest_loop_ends_skip pv m rest self p :
  parse (version m) <> None ->
  closest_ok pv m = false ->
  closest_match_loop pv (m :: rest) self p
  = closest_match_loop pv rest self p ->
  closest_loop_ends pv rest self p ->
  closest_loop_ends pv (m :: rest) self p.
Proof.
  intros Hp Hfalse Hstep IH. unfold closest_loop_ends. rewrite Hstep.
  destruct IH as [[before [entry [after [-> [Hb [He Hr]]]]]]
                 |[[Hall Hr]
                  |[before [bad [after [-> [Hb [Hbad Hr]]]]]]]].
  - left. exists (m :: before), entry, after.
    split; [reflexivity|]. split; [now constructor|].
    split; [exact He | exact Hr].
  - right. left. split; [now constructor | exact Hr].
  - right. right. exists (m :: before), bad, after.
    split; [reflexivity|]. split; [now constructor|].
    split; [exact Hbad | exact Hr].
Qed.

(** Entries past the point where the loop ends are not looked at. *)
Lemma closest_match_loop_ends pv manifest self p :
  closest_loop_ends pv manifest self p.
Proof.
  induction manifest as [|m rest IH].
  - right. left. split; [constructor | reflexivity].
  - assert (Hrun : closest_match_loop pv (m :: rest) self p
                   = match parse (version m) with
                     | None => (Raise (InvalidVersion (version m)), p)
                     | Some v =>
                         if version_gt v pv
                         then closest_match_loop pv rest self p
                         else if negb (major v =? major pv)%N
                              then closest_match_loop pv rest self p
                              else (Return (set_closest_fields (url m)
                                              (build m) (version m) self), p)
                     end).
    { simpl. unfold bind, version_parse.
      destruct (parse (version m)) as [v|]; [|reflexivity].
      unfold ret at 1.
      destruct (version_gt v pv); [reflexivity|].
      now destruct (negb (major v =? major pv)%N). }
    destruct (parse (version m)) as [v|] eqn:Hv.
    + assert (Hok : closest_ok pv m
                    = (if version_gt v pv then false
                       else if negb (major v =? major pv)%N then false
                            else true)).
      { unfold closest_ok. rewrite Hv. symmetry.
        apply closest_filters_agree. }
      destruct (version_gt v pv) eqn:Hgt;
        [|destruct (negb (major v =? major pv)%N) eqn:Hmaj].
      * apply closest_loop_ends_skip; [congruence | exact Hok | exact Hrun
                                      | exact IH].
      * apply closest_loop_ends_skip; [congruence | exact Hok | exact Hrun
                                      | exact IH].
      * left. exists [], m, rest. repeat split; auto.
    + right. right. exists [], m, rest. repeat split; auto.
Qed.

(** *** The manifest fetch *)

(** [_get_remote_metallibs], outcome by outcome. *)
Lemma fetch_stages self p :
  _get_remote_metallibs env self p
  = if opt_list_truthy (METALLIB_ASSET_LIST p)
    then (Return (METALLIB_ASSET_LIST p), p)
    else
      match http_get env (trace p) with
      | NetRaises OtherRequestException =>
          (Raise (RequestError OtherRequestException),
           record (manifest_request self) p)
      | NetRaises _ => (Return None, record (manifest_request self) p)
      | NetResponse status_code json =>
          if (status_code =? 200)%Z then
            match json with
            | None => (Raise JSONDecodeError,
                       record (manifest_request self) p)
            | Some manifest =>
                (Return (Some manifest),
                 {| METALLIB_ASSET_LIST := Some manifest;
                    install_root := install_root p;
                    trace := (trace p ++ [manifest_request self])%list |})
            end
          else (Return None, record (manifest_request self) p)
      end.
Proof.
  unfold _get_remote_metallibs, bind, get_asset_list, network_get,
    manifest_request.
  destruct (opt_list_truthy (METALLIB_ASSET_LIST p)); [reflexivity|].
  destruct (http_get env (trace p)) as [[| | |]|code [m|]];
    try reflexivity; now destruct (code =? 200)%Z.
Qed.

Lemma fetch_some_in_cache self p manifest p1 :
  _get_remote_metallibs env self p = (Return (Some manifest), p1) ->
  METALLIB_ASSET_LIST p1 = Some manifest
  /\ install_root p1 = install_root p.
Proof.
  rewrite fetch_stages.
  destruct (opt_list_truthy (METALLIB_ASSET_LIST p)).
  - intros [= Hm <-]. now split.
  - destruct (http_get env (trace p)) as [[| | |]|code [m|]];
      try discriminate; destruct (code =? 200)%Z; try discriminate.
    intros [= <- <-]. now split.
Qed.

Lemma fetch_none_not_cached self p p1 :
  _get_remote_metallibs env self p = (Return None, p1) ->
  opt_list_truthy (METALLIB_ASSET_LIST p1) = false.
Proof.
  rewrite fetch_stages.
  destruct (opt_list_truthy (METALLIB_ASSET_LIST p)) eqn:Hc.
  - intros [= Hn _]. rewrite Hn in Hc. discriminate.
  - destruct (http_get env (trace p)) as [[| | |]|code [m|]];
      try discriminate; try (destruct (code =? 200)%Z);
      try discriminate; intros [= <-]; exact Hc.
Qed.

(** X1. A fetch that does not come back with a manifest (it returns
    [None] or raises) has sent exactly one request and changed nothing
    else: the cache is as it was, and it was not holding a usable
    manifest, so the next fetch, by whichever object, sends a request
    again. *)
Theorem fetch_without_manifest_is_not_cached self p r p1 :
  _get_remote_metallibs env self p = (r, p1) ->
  (forall manifest, r <> Return (Some manifest)) ->
  p1 = record (manifest_request self) p
  /\ opt_list_truthy (METALLIB_ASSET_LIST p1) = false
  /\ forall self',
       trace (snd (_get_remote_metallibs env self' p1))
       = (trace p1 ++ [manifest_request self'])%list.
Proof.
  intros Hrun Hnone. rewrite fetch_stages in Hrun.
  destruct (opt_list_truthy (METALLIB_ASSET_LIST p)) eqn:Hc.
  { injection Hrun as <- <-.
    destruct (METALLIB_ASSET_LIST p) as [[|e m]|]; try discriminate.
    now destruct (Hnone (e :: m)). }
  assert (Hp1 : p1 = record (manifest_request self) p).
  { destruct (http_get env (trace p)) as [[| | |]|code [m|]];
      try (destruct (code =? 200)%Z); injection Hrun as <- <-;
      try reflexivity.
    now destruct (Hnone m). }
  subst p1. split; [reflexivity|]. split; [exact Hc|].
  intros self'. rewrite fetch_stages.
  cbn [record METALLIB_ASSET_LIST]. rewrite Hc.
  destruct (http_get env (trace (record (manifest_request self) p)))
    as [[| | |]|code [m|]];
    try (destruct (code =? 200)%Z); reflexivity.
Qed.

(** X2. A fetch that returns a manifest leaves exactly that manifest in
    the cache and the install root alone; the manifest is either the
    non-empty one the cache already held, with the process untouched, or
    the body of a 200 answer to the one request sent. *)
Theorem fetch_returns_what_it_caches self p manifest p1 :
  _get_remote_metallibs env self p = (Return (Some manifest), p1) ->
  METALLIB_ASSET_LIST p1 = Some manifest
  /\ install_root p1 = install_root p
  /\ ((p1 = p /\ manifest <> [])
      \/ (opt_list_truthy (METALLIB_ASSET_LIST p) = false
          /\ http_get env (trace p) = NetResponse 200 (Some manifest)
          /\ trace p1 = (trace p ++ [manifest_request self])%list)).
Proof.
  intros Hrun. rewrite fetch_stages in Hrun.
  destruct (opt_list_truthy (METALLIB_ASSET_LIST p)) eqn:Hc.
  - injection Hrun as Hm <-. repeat split; auto. left. split; auto.
    rewrite Hm in Hc. now destruct manifest.
  - destruct (http_get env (trace p)) as [[| | |]|code [m|]];
      try discriminate;
      destruct (code =? 200)%Z eqn:Hcode; try discriminate.
    injection Hrun as <- <-. apply Z.eqb_eq in Hcode. subst code.
    repeat split. right. repeat split.
Qed.

(** *** The name tests of the probe *)

Lemma prefix_spec a b :
  prefix a b = true <-> exists rest, b = a ++ rest.
Proof.
  revert b. induction a as [|c a IH]; intros b.
  - destruct b; simpl; (split; [intros _; eexists; reflexivity | reflexivity]).
  - destruct b as [|d b]; simpl.
    + split; [discriminate | intros [rest H]; discriminate].
    + destruct (ascii_dec c d) as [->|Hne].
      * rewrite IH. split; intros [rest H]; exists rest; congruence.
      * split; [discriminate | intros [rest H]; congruence].
Qed.

Lemma str_contains_step sub s :
  str_contains sub s
  = if prefix sub s then true
    else match s with
         | EmptyString => false
         | String _ rest => str_contains sub rest
         end.
Proof. now destruct s. Qed.

Lemma str_contains_spec sub s :
  str_contains sub s = true
  <-> exists before after, s = before ++ sub ++ after.
Proof.
  induction s as [|c s IH]; rewrite str_contains_step.
  - destruct (prefix sub "") eqn:Hp.
    + apply prefix_spec in Hp. destruct Hp as [rest H].
      split; [intros _; now exists "", rest | reflexivity].
    + split; [discriminate|]. intros [before [after H]].
      destruct before; [|discriminate]. simpl in H.
      assert (prefix sub "" = true) by (apply prefix_spec; eauto).
      congruence.
  - destruct (prefix sub (String c s)) eqn:Hp.
    + apply prefix_spec in Hp. destruct Hp as [rest H].
      split; [intros _; now exists "", rest | reflexivity].
    + rewrite IH. split.
      * intros [before [after H]]. exists (String c before), after.
        simpl. now rewrite H.
      * intros [[|d before] [after H]]; simpl in H.
        -- assert (prefix sub (String c s) = true)
             by (apply prefix_spec; eauto).
           congruence.
        -- injection H as _ H. eauto.
Qed.

Lemma str_endswith_step s suffix :
  str_endswith s suffix
  = if (s =? suffix)%string then true
    else match s with
         | EmptyString => false
         | String _ rest => str_endswith rest suffix
         end.
Proof. now destruct s. Qed.

Lemma str_endswith_spec s suffix :
  str_endswith s suffix = true <-> exists before, s = before ++ suffix.
Proof.
  induction s as [|c s IH]; rewrite str_endswith_step.
  - destruct (String.eqb_spec "" suffix) as [<-|Hne].
    + split; [intros _; now exists "" | reflexivity].
    + split; [discriminate|]. intros [before H].
      destruct before; simpl in H; [congruence | discriminate].
  - destruct (String.eqb_spec (String c s) suffix) as [<-|Hne].
    + split; [intros _; now exists "" | reflexivity].
    + rewrite IH. split.
      * intros [before H]. exists (String c before). simpl. now rewrite H.
      * intros [[|d before] H]; simpl in H; [congruence|].
        injection H as _ H. eauto.
Qed.

(** The test the loop applies to a directory name, and what it means. *)
Lemma name_test_spec match_ (check_version : bool) name :
  (if check_version
   then opt_str_truthy match_
        && negb (str_contains (str_value match_) name)
   else opt_str_truthy match_
        && negb (str_endswith name ("-" ++ str_value match_))) = false
  <-> folder_matches match_ check_version name.
Proof.
  unfold folder_matches.
  destruct (opt_str_truthy match_); simpl.
  2:{ destruct check_version; split; auto; discriminate. }
  destruct check_version.
  - rewrite negb_false_iff, str_contains_spec. tauto.
  - rewrite negb_false_iff, str_endswith_spec. tauto.
Qed.

Lemma first_matching_folder_step match_ (check_version : bool)
    name is_dir rest :
  first_matching_folder match_ check_version ((name, is_dir) :: rest)
  = if negb is_dir
       || (if check_version
           then opt_str_truthy match_
                && negb (str_contains (str_value match_) name)
           else opt_str_truthy match_
                && negb (str_endswith name ("-" ++ str_value match_)))
    then first_matching_folder match_ check_version rest
    else Some (METALLIB_INSTALL_PATH ++ "/" ++ name).
Proof.
  cbn [first_matching_folder].
  destruct is_dir; cbn [negb orb]; [|reflexivity].
  destruct check_version;
    match goal with |- context [if ?b then _ else _] => destruct b end;
    reflexivity.
Qed.

Lemma first_matching_folder_spec match_ check_version children :
  match first_matching_folder match_ check_version children with
  | Some path =>
      exists before name after,
        children = (before ++ (name, true) :: after)%list
        /\ path = METALLIB_INSTALL_PATH ++ "/" ++ name
        /\ folder_matches match_ check_version name
        /\ Forall (fun child =>
                     snd child = true ->
                     ~ folder_matches match_ check_version (fst child))
             before
  | None =>
      Forall (fun child =>
                snd child = true ->
                ~ folder_matches match_ check_version (fst child))
        children
  end.
Proof.
  induction children as [|[name is_dir] rest IH]; [constructor|].
  rewrite first_matching_folder_step.
  pose proof (name_test_spec match_ check_version name) as Htest.
  destruct (if check_version
            then opt_str_truthy match_
                 && negb (str_contains (str_value match_) name)
            else opt_str_truthy match_
                 && negb (str_endswith name ("-" ++ str_value match_)))
    eqn:Ht.
  - rewrite orb_true_r.
    assert (Hno : snd (name, is_dir) = true ->
                  ~ folder_matches match_ check_version
                      (fst (name, is_dir))).
    { intros _ Hm. apply Htest in Hm. discriminate. }
    destruct (first_matching_folder match_ check_version rest) as [path|].
    + destruct IH as [before [name0 [after [-> [Hp [Hm Hb]]]]]].
      exists ((name, is_dir) :: before), name0, after.
      split; [reflexivity|]. split; [exact Hp|]. split; [exact Hm|].
      now constructor.
    + now constructor.
  - rewrite orb_false_r. destruct is_dir; cbn [negb].
    + exists [], name, rest. repeat split; [|constructor].
      now apply Htest.
    + assert (Hno : snd (name, false) = true ->
                    ~ folder_matches match_ check_version
                        (fst (name, false))) by discriminate.
      destruct (first_matching_folder match_ check_version rest)
        as [path|].
      * destruct IH as [before [name0 [after [-> [Hp [Hm Hb]]]]]].
        exists ((name, false) :: before), name0, after.
        split; [reflexivity|]. split; [exact Hp|]. split; [exact Hm|].
        now constructor.
      * now constructor.
Qed.

(** [_local_metallib_installed], case by case. *)
Lemma probe_stages self match_ check_version p :
  _local_metallib_installed self match_ check_version p
  = if ignore_installed self then (Return None, p)
    else
      match install_root p with
      | Absent => (Return None, record (FsExists METALLIB_INSTALL_PATH) p)
      | NotDir =>
          (Raise (NotADirectoryError METALLIB_INSTALL_PATH),
           record (FsIterdir METALLIB_INSTALL_PATH)
             (record (FsExists METALLIB_INSTALL_PATH) p))
      | Dir children =>
          (Return (first_matching_folder match_ check_version children),
           record (FsIterdir METALLIB_INSTALL_PATH)
             (record (FsExists METALLIB_INSTALL_PATH) p))
      end.
Proof.
  unfold _local_metallib_installed, bind, path_exists, path_iterdir.
  destruct (ignore_installed self); [reflexivity|].
  destruct (install_root p) eqn:Hroot; simpl; rewrite ?Hroot; reflexivity.
Qed.

Lemma probe_keeps_root self match_ check_version p :
  install_root (snd (_local_metallib_installed self match_ check_version p))
  = install_root p.
Proof.
  rewrite probe_stages.
  destruct (ignore_installed self); [reflexivity|].
  destruct (install_root p) eqn:Hroot; cbn; exact Hroot.
Qed.

(** X3. What the probe returns.  A path it returns is that of a child
    of the install root that is a directory and whose name passes the
    name test, and no directory listed before it passes; when it returns
    [None], the object ignores installations, or nothing is at the
    install root, or no child directory passes.  Either way the cache and
    the install root are as before. *)
Theorem probe_returns_first_matching_directory
    self match_ check_version p r p1 :
  _local_metallib_installed self match_ check_version p = (Return r, p1) ->
  METALLIB_ASSET_LIST p1 = METALLIB_ASSET_LIST p
  /\ install_root p1 = install_root p
  /\ match r with
     | Some path =>
         ignore_installed self = false
         /\ exists before name after,
              install_root p = Dir (before ++ (name, true) :: after)
              /\ path = METALLIB_INSTALL_PATH ++ "/" ++ name
              /\ folder_matches match_ check_version name
              /\ Forall (fun child =>
                           snd child = true ->
                           ~ folder_matches match_ check_version
                               (fst child))
                   before
     | None =>
         ignore_installed self = true
         \/ install_root p = Absent
         \/ exists children,
              install_root p = Dir children
              /\ Forall (fun child =>
                           snd child = true ->
                           ~ folder_matches match_ check_version
                               (fst child))
                   children
     end.
Proof.
  rewrite probe_stages. intros Hrun.
  destruct (ignore_installed self).
  { injection Hrun as <- <-. repeat split. now left. }
  destruct (install_root p) as [| |children] eqn:Hroot;
    [| discriminate |]; injection Hrun as <- <-;
    (split; [reflexivity|]); (split; [exact Hroot|]).
  - right. now left.
  - pose proof (first_matching_folder_spec match_ check_version children)
      as Hspec.
    destruct (first_matching_folder match_ check_version children)
      as [path|].
    + split; [reflexivity|].
      destruct Hspec as [before [name [after [-> H]]]].
      exists before, name, after. now split.
    + right. right. now exists children.
Qed.

(** *** The resolver on any manifest *)

Lemma exact_build_loop_flag manifest self :
  metallib_url_is_exactly_match (exact_build_loop manifest self)
  = lists_build (host_build self) manifest
    || metallib_url_is_exactly_match self.
Proof.
  induction manifest as [|m rest IH]; simpl; [reflexivity|].
  destruct (build m =? host_build self)%string; simpl; [reflexivity|].
  exact IH.
Qed.

Lemma lists_build_true hb manifest entry :
  In entry manifest -> build entry = hb -> lists_build hb manifest = true.
Proof.
  intros Hin Hb. apply existsb_exists. exists entry.
  split; [exact Hin | now apply String.eqb_eq].
Qed.

(** The resolver never touches the process. *)
Lemma resolve_with_state pv manifest self p :
  snd (resolve_with pv manifest self p) = p.
Proof.
  unfold resolve_with. cbv zeta.
  destruct (negb (str_truthy _)); [|reflexivity].
  rewrite bind_state, closest_match_loop_state.
  destruct (fst (closest_match_loop _ _ _ p)) as [self'|e]; [|reflexivity].
  now destruct (negb (str_truthy (metallib_closest_match_url self'))).
Qed.

(** What the resolver makes of a manifest, for an object fresh from the
    constructor: it raises at a version that does not parse, or resolves
    an entry of the manifest, or reports that none is suitable. *)
Lemma resolve_with_outcomes c hb hv ig pa installed pv manifest p r p' :
  resolve_with pv manifest
    (set_installed_path installed (new_object c hb hv ig pa)) p
  = (r, p') ->
  p' = p
  /\ match r with
     | Raise e =>
         exists before bad after,
           manifest = (before ++ bad :: after)%list
           /\ Forall (fun m => parse (version m) <> None
                               /\ closest_ok pv m = false) before
           /\ parse (version bad) = None
           /\ e = InvalidVersion (version bad)
     | Return self =>
         constants self = c /\ host_build self = hb
         /\ host_version self = hv /\ passive self = pa
         /\ ignore_installed self = ig
         /\ metallib_already_installed self = false
         /\ metallib_installed_path self = installed
         /\ metallib_url_is_exactly_match self = lists_build hb manifest
         /\ ((success self = true /\ error_msg self = ""
              /\ metallib_url self <> ""
              /\ In (selected_entry self) manifest
              /\ ((metallib_url_build self = hb
                   /\ closest_entry self = no_entry)
                  \/ (closest_ok pv (selected_entry self) = true
                      /\ closest_entry self = selected_entry self)))
             \/ (success self = false
                 /\ error_msg self
                    = "No suitable metallib found for " ++ hb
                 /\ metallib_url self = ""
                 /\ (metallib_url_is_exactly_match self = true ->
                     metallib_url_build self = hb)))
     end.
Proof.
  intros Hrun.
  split.
  { pose proof (resolve_with_state pv manifest
                  (set_installed_path installed (new_object c hb hv ig pa))
                  p) as Hs.
    rewrite Hrun in Hs. exact Hs. }
  revert Hrun. unfold resolve_with. cbv zeta.
  set (self0 := set_installed_path installed (new_object c hb hv ig pa)).
  pose proof (exact_build_loop_flag manifest self0) as Hflag.
  cbn [self0 host_build set_installed_path new_object
       metallib_url_is_exactly_match] in Hflag.
  rewrite orb_false_r in Hflag. fold self0 in Hflag.
  destruct (exact_build_loop_cases manifest self0)
    as [Heq | [entry [Hin [Hb Heq]]]]; rewrite Heq in *; clear Heq.
  - (* no entry of the host's build *)
    change (negb (str_truthy (metallib_url self0))) with true. cbv iota.
    cbn [self0 set_installed_path new_object
         metallib_url_is_exactly_match] in Hflag.
    destruct (closest_match_loop_ends pv manifest self0 p)
      as [[before [e [after [Hm [Hb [He Hr]]]]]]
         |[[Hall Hr]
          |[before [bad [after [Hm [Hb [Hbad Hr]]]]]]]];
      unfold bind; rewrite Hr.
    + cbn [metallib_closest_match_url set_closest_fields].
      assert (Hine : In e manifest)
        by (rewrite Hm; apply in_elt).
      destruct (str_truthy (url e)) eqn:Hu; cbn [negb];
        intros [= <- _]; cbn; rewrite <- Hflag; repeat split.
      * left. unfold selected_entry, closest_entry. cbn.
        rewrite entry_eta. apply str_truthy_true in Hu.
        repeat split; auto.
      * right. repeat split. discriminate.
    + change (negb (str_truthy (metallib_closest_match_url self0)))
        with true. cbv iota.
      intros [= <- _]. cbn. rewrite <- Hflag. repeat split.
      right. repeat split. discriminate.
    + intros [= <- _]. exists before, bad, after. repeat split; auto.
  - (* an entry of the host's build *)
    cbn [self0 host_build set_installed_path new_object] in Hb.
    assert (Hl : lists_build hb manifest = true)
      by (now apply lists_build_true with (entry := entry)).
    cbn [metallib_url set_is_exactly_match set_url_fields].
    destruct (str_truthy (url entry)) eqn:Hu; cbn [negb].
    + intros [= <- _]. cbn. rewrite Hl. repeat split.
      left. unfold selected_entry, closest_entry. cbn.
      rewrite entry_eta. apply str_truthy_true in Hu.
      repeat split; auto.
    + match goal with
      | |- context [closest_match_loop pv manifest ?s] =>
          destruct (closest_match_loop_ends pv manifest s p)
            as [[before [e [after [Hm [Hbf [He Hr]]]]]]
               |[[Hall Hr]
                |[before [bad [after [Hm [Hbf [Hbad Hr]]]]]]]]
      end; unfold bind; rewrite Hr.
      * cbn [metallib_closest_match_url set_closest_fields].
        assert (Hine : In e manifest)
          by (rewrite Hm; apply in_elt).
        destruct (str_truthy (url e)) eqn:Hue; cbn [negb];
          intros [= <- _]; cbn; rewrite Hl; repeat split.
        -- left. unfold selected_entry, closest_entry. cbn.
           rewrite entry_eta. apply str_truthy_true in Hue.
           repeat split; auto.
        -- right. apply str_truthy_false in Hu.
           repeat split; auto.
      * cbn [metallib_closest_match_url set_is_exactly_match
             set_url_fields self0 set_installed_path new_object
             str_truthy negb].
        intros [= <- _]. cbn. rewrite Hl. repeat split.
        right. apply str_truthy_false in Hu. repeat split; auto.
      * intros [= <- _]. exists before, bad, after. repeat split; auto.
Qed.

(** *** What the constructor leaves behind *)

(** X4. Past the environment guard, a host version that is no version
    makes the constructor raise [InvalidVersion] before anything is probed
    or fetched. *)
Theorem unparsable_host_version_raises c hb hv ig pa p :
  installer_environment c || recovery_environment c = false ->
  parse hv = None ->
  __init__ env c hb hv ig pa p = (Raise (InvalidVersion hv), p).
Proof.
  intros Hg Hp. rewrite (init_unguarded env _ _ _ _ _ _ Hg).
  rewrite latest_stages.
  cbn [host_version new_object]. now rewrite Hp.
Qed.

(** X5. When the probe finds nothing and the fetch returns [None], the
    constructor still returns an object: [success] is false, the message
    is [Failed to fetch Metallib manifest], nothing is resolved, no
    download is offered, and [install_metallib] on it returns [True]
    without running the installer. *)
Theorem fetch_failure_outcome c hb hv ig pa pv p p1 p2 :
  installer_environment c || recovery_environment c = false ->
  parse hv = Some pv ->
  (sequoia <= os_to_kernel (str_of_int (major pv)))%Z ->
  _local_metallib_installed (new_object c hb hv ig pa) None false p
  = (Return None, p1) ->
  _get_remote_metallibs env (new_object c hb hv ig pa) p1
  = (Return None, p2) ->
  exists self,
    __init__ env c hb hv ig pa p = (Return self, p2)
    /\ success self = false
    /\ error_msg self = "Failed to fetch Metallib manifest"
    /\ metallib_already_installed self = false
    /\ metallib_installed_path self = None
    /\ selected_entry self = no_entry
    /\ closest_entry self = no_entry
    /\ (forall override_path, retrieve_download self override_path = None)
    /\ (forall metallib q,
          install_metallib env self metallib q = (Return true, q)).
Proof.
  intros Hg Hp Hge Hprobe Hfetch. apply Z.ltb_ge in Hge.
  rewrite (init_unguarded env _ _ _ _ _ _ Hg), latest_stages.
  cbn [host_version new_object]. rewrite Hp, Hge.
  fold (new_object c hb hv ig pa). rewrite Hprobe.
  cbn [opt_str_truthy]. rewrite Hfetch.
  eexists. split; [reflexivity|]. repeat split.
  intros metallib q. apply install_skipped. right. left. reflexivity.
Qed.

(** Every way the constructor returns. *)
Lemma init_returns c hb hv ig pa p self p' :
  __init__ env c hb hv ig pa p = (Return self, p') ->
  (self = set_success true (new_object c hb hv ig pa) /\ p' = p)
  \/ (installer_environment c || recovery_environment c = false
      /\ exists pv,
           parse hv = Some pv
           /\ (os_to_kernel (str_of_int (major pv)) <? sequoia)%Z = false
           /\ exists installed p1,
                _local_metallib_installed (new_object c hb hv ig pa)
                  None false p
                = (Return installed, p1)
                /\ ((opt_str_truthy installed = true
                     /\ self = set_success true
                                 (set_already_installed true
                                    (set_installed_path installed
                                       (new_object c hb hv ig pa)))
                     /\ p' = p1)
                    \/ (opt_str_truthy installed = false
                        /\ exists fetched,
                             _get_remote_metallibs env
                               (new_object c hb hv ig pa) p1
                             = (Return fetched, p')
                             /\ match fetched with
                                | None =>
                                    self
                                    = set_error_msg
                                        "Failed to fetch Metallib manifest"
                                        (set_installed_path installed
                                           (new_object c hb hv ig pa))
                                | Some manifest =>
                                    resolve_with pv manifest
                                      (set_installed_path installed
                                         (new_object c hb hv ig pa)) p'
                                    = (Return self, p')
                                end))).
Proof.
  intros Hrun.
  destruct (installer_environment c || recovery_environment c) eqn:Hg.
  { rewrite (init_guarded env _ _ _ _ _ _ Hg) in Hrun.
    injection Hrun as <- <-. now left. }
  rewrite (init_unguarded env _ _ _ _ _ _ Hg), latest_stages in Hrun.
  cbn [host_version new_object] in Hrun.
  fold (new_object c hb hv ig pa) in Hrun.
  destruct (parse hv) as [pv|] eqn:Hp; [|discriminate].
  destruct (os_to_kernel (str_of_int (major pv)) <? sequoia)%Z eqn:Hgate.
  { injection Hrun as <- <-. now left. }
  right. split; [reflexivity|]. exists pv.
  split; [reflexivity|]. split; [exact Hgate|].
  destruct (_local_metallib_installed (new_object c hb hv ig pa)
              None false p) as [[installed|e] p1]; [|discriminate].
  exists installed, p1. split; [reflexivity|].
  destruct (opt_str_truthy installed) eqn:Hi.
  { injection Hrun as <- <-. left. auto. }
  right. split; [reflexivity|].
  destruct (_get_remote_metallibs env (new_object c hb hv ig pa) p1)
    as [[[manifest|]|e] p2] eqn:Hf; [| |discriminate].
  - pose proof (resolve_with_state pv manifest
                  (set_installed_path installed
                     (new_object c hb hv ig pa)) p2) as Hs.
    rewrite Hrun in Hs. cbn in Hs. subst p'.
    exists (Some manifest). split; [reflexivity | exact Hrun].
  - injection Hrun as <- <-. exists None. split; reflexivity.
Qed.

(** X6. An object the constructor returns keeps the arguments it was
    given and is in exactly one of five states: skipped (environment
    guard or OS gate; the process untouched), already installed (with
    the non-empty path found, and only when installations are not
    ignored), resolved (a non-empty URL), fetch failed, or none
    suitable.  [success] is true in the first three and false, with the
    message set, in the last two. *)
Theorem construction_outcomes c hb hv ig pa p self p' :
  __init__ env c hb hv ig pa p = (Return self, p') ->
  (constants self = c /\ host_build self = hb /\ host_version self = hv
   /\ passive self = pa /\ ignore_installed self = ig)
  /\ ((success self = true /\ error_msg self = ""
       /\ metallib_already_installed self = false
       /\ metallib_url self = "" /\ p' = p)
      \/ (success self = true /\ error_msg self = ""
          /\ metallib_already_installed self = true
          /\ metallib_url self = "" /\ ig = false
          /\ exists path,
               metallib_installed_path self = Some path /\ path <> "")
      \/ (success self = true /\ error_msg self = ""
          /\ metallib_already_installed self = false
          /\ metallib_url self <> "")
      \/ (success self = false
          /\ error_msg self = "Failed to fetch Metallib manifest"
          /\ metallib_already_installed self = false
          /\ metallib_url self = "")
      \/ (success self = false
          /\ error_msg self = "No suitable metallib found for " ++ hb
          /\ metallib_already_installed self = false
          /\ metallib_url self = "")).
Proof.
  intros Hrun.
  destruct (init_returns _ _ _ _ _ _ _ _ Hrun)
    as [[-> ->]
       |[Hg [pv [Hp [Hgate [installed [p1 [Hprobe
          [[Hi [-> ->]] | [Hi [fetched [Hfetch Hres]]]]]]]]]]]].
  - split; [repeat split|]. left. repeat split.
  - split; [repeat split|]. right. left.
    destruct installed as [path|]; [|discriminate].
    repeat split.
    + destruct ig; [|reflexivity].
      rewrite probe_stages in Hprobe. discriminate.
    + exists path. split; [reflexivity|]. now apply str_truthy_true.
  - destruct fetched as [manifest|].
    + destruct (resolve_with_outcomes _ _ _ _ _ _ _ _ _ _ _ Hres)
        as [_ [Hc [Hb [Hv [Hpa [Hig [Hai [_ [_ Hout]]]]]]]]].
      split; [repeat split; assumption|].
      destruct Hout as [[Hs [He [Hu _]]] | [Hs [He [Hu _]]]].
      * right. right. left. repeat split; assumption.
      * right. right. right. right. repeat split; assumption.
    + subst self. split; [repeat split|].
      right. right. right. left. repeat split.
Qed.

(** X7. A download is only offered for an entry of the cached manifest:
    when [retrieve_download] on a constructed object returns a download,
    [success] is true, the URL is the non-empty URL of an entry of the
    manifest held in the cache, that entry carries the host's build or
    passes both closest-match filters, and the destination is
    [Path(override_path)] when an override path is given and the default
    path otherwise. *)
Theorem download_comes_from_manifest
    c hb hv ig pa p self p' override_path download :
  __init__ env c hb hv ig pa p = (Return self, p') ->
  retrieve_download self override_path = Some download ->
  success self = true
  /\ download_path download
     = (if str_truthy override_path then Path override_path
        else metallib_download_path c)
  /\ exists manifest entry pv,
       METALLIB_ASSET_LIST p' = Some manifest
       /\ In entry manifest
       /\ selected_entry self = entry
       /\ download_url download = url entry
       /\ url entry <> ""
       /\ parse hv = Some pv
       /\ (build entry = hb \/ closest_ok pv entry = true).
Proof.
  intros Hrun Hdl. unfold retrieve_download in Hdl.
  destruct (metallib_already_installed self
            || negb (str_truthy (metallib_url self))) eqn:Hskip;
    [discriminate|].
  apply orb_false_elim in Hskip. destruct Hskip as [Hai Hu].
  apply negb_false_iff in Hu.
  injection Hdl as <-. cbn [download_url download_path].
  destruct (init_returns _ _ _ _ _ _ _ _ Hrun)
    as [[-> ->]
       |[Hg [pv [Hp [Hgate [installed [p1 [Hprobe
          [[Hi [-> ->]] | [Hi [fetched [Hfetch Hres]]]]]]]]]]]];
    try discriminate.
  destruct fetched as [manifest|]; [|subst self; discriminate].
  destruct (resolve_with_outcomes _ _ _ _ _ _ _ _ _ _ _ Hres)
    as [_ [Hc [_ [_ [_ [_ [_ [_ [_ Hout]]]]]]]]].
  destruct (fetch_some_in_cache _ _ _ _ Hfetch) as [Hcache _].
  destruct Hout as [[Hs [_ [Hne [Hin Hwhy]]]] | [_ [_ [Hempty _]]]].
  2:{ rewrite Hempty in Hu. discriminate. }
  split; [exact Hs|]. split.
  { rewrite Hc. now destruct (str_truthy override_path). }
  exists manifest, (selected_entry self), pv.
  repeat split; auto.
  destruct Hwhy as [[Hb _] | [Hok _]]; [left | right]; assumption.
Qed.

(** X8. Once a manifest is fetched, the exact-match flag of the object
    the constructor returns is true exactly when the manifest lists the
    host's build; when it is true and no closest match was assigned, the
    resolved build is the host's. *)
Theorem exact_flag_tells_build_is_listed
    c hb hv ig pa pv p p1 manifest p2 self p3 :
  installer_environment c || recovery_environment c = false ->
  parse hv = Some pv ->
  (sequoia <= os_to_kernel (str_of_int (major pv)))%Z ->
  _local_metallib_installed (new_object c hb hv ig pa) None false p
  = (Return None, p1) ->
  _get_remote_metallibs env (new_object c hb hv ig pa) p1
  = (Return (Some manifest), p2) ->
  __init__ env c hb hv ig pa p = (Return self, p3) ->
  p3 = p2
  /\ metallib_url_is_exactly_match self = lists_build hb manifest
  /\ (metallib_url_is_exactly_match self = true ->
      closest_entry self = no_entry ->
      metallib_url_build self = hb).
Proof.
  intros Hg Hp Hge Hprobe Hfetch Hrun.
  rewrite (init_resolves env _ _ _ _ _ _ _ _ _ _ Hg Hp Hge Hprobe Hfetch)
    in Hrun.
  destruct (resolve_with_outcomes _ _ _ _ _ _ _ _ _ _ _ Hrun)
    as [-> [_ [_ [_ [_ [_ [_ [_ [Hflag Hout]]]]]]]]].
  split; [reflexivity|]. split; [exact Hflag|].
  intros Ht Hnone.
  destruct Hout as [[_ [_ [Hne [_ [[Hb _] | [_ Hc]]]]]] | [_ [_ [_ Hb]]]].
  - exact Hb.
  - exfalso. apply Hne. rewrite Hnone in Hc.
    now injection Hc.
  - now apply Hb.
Qed.

(** *** How far the closest-match loop reads *)

Lemma closest_match_loop_step pv m rest self p :
  closest_match_loop pv (m :: rest) self p
  = match parse (version m) with
    | None => (Raise (InvalidVersion (version m)), p)
    | Some _ =>
        if closest_ok pv m
        then (Return (set_closest_fields (url m) (build m) (version m)
                        self), p)
        else closest_match_loop pv rest self p
    end.
Proof.
  simpl. unfold bind, version_parse, closest_ok.
  destruct (parse (version m)) as [v|]; [|reflexivity].
  unfold ret at 1. rewrite <- closest_filters_agree.
  destruct (version_gt v pv); [reflexivity|].
  now destruct (negb (major v =? major pv)%N).
Qed.

Lemma closest_match_loop_skips pv before rest self p :
  Forall (fun m => parse (version m) <> None /\ closest_ok pv m = false)
    before ->
  closest_match_loop pv (before ++ rest)%list self p
  = closest_match_loop pv rest self p.
Proof.
  induction 1 as [|m before [Hparse Hok] _ IH]; [reflexivity|].
  rewrite <- app_comm_cons, closest_match_loop_step, Hok.
  destruct (parse (version m)); [exact IH | congruence].
Qed.

(** X9. A manifest entry whose version is no version makes the
    constructor raise [InvalidVersion] with that version, when no entry
    carries the host's build and every entry before it parses and fails
    the closest-match filters; the fetched manifest stays in the cache. *)
Theorem malformed_manifest_version_raises
    c hb hv ig pa pv p p1 before bad after p2 :
  installer_environment c || recovery_environment c = false ->
  parse hv = Some pv ->
  (sequoia <= os_to_kernel (str_of_int (major pv)))%Z ->
  _local_metallib_installed (new_object c hb hv ig pa) None false p
  = (Return None, p1) ->
  _get_remote_metallibs env (new_object c hb hv ig pa) p1
  = (Return (Some (before ++ bad :: after)%list), p2) ->
  Forall (fun m => build m <> hb) (before ++ bad :: after)%list ->
  Forall (fun m => parse (version m) <> None /\ closest_ok pv m = false)
    before ->
  parse (version bad) = None ->
  __init__ env c hb hv ig pa p = (Raise (InvalidVersion (version bad)), p2)
  /\ METALLIB_ASSET_LIST p2 = Some (before ++ bad :: after)%list.
Proof.
  intros Hg Hp Hge Hprobe Hfetch Hbuild Hbefore Hbad.
  split; [|now apply (fetch_some_in_cache _ _ _ _ Hfetch)].
  rewrite (init_resolves env _ _ _ _ _ _ _ _ _ _ Hg Hp Hge Hprobe Hfetch).
  unfold resolve_with. cbv zeta.
  rewrite exact_build_loop_no_match by exact Hbuild.
  change (negb (str_truthy
                  (metallib_url
                     (set_installed_path None
                        (new_object c hb hv ig pa))))) with true.
  cbv iota. unfold bind.
  rewrite closest_match_loop_skips by exact Hbefore.
  rewrite closest_match_loop_step, Hbad. reflexivity.
Qed.

(** X10. The closest-match loop stops at the first entry that passes
    both filters: when no entry carries the host's build, that entry is
    resolved whatever follows it in the manifest, be it entries with a
    higher admissible version or entries whose version is no version. *)
Theorem entries_after_the_match_are_not_read
    c hb hv ig pa pv p p1 before entry after p2 :
  installer_environment c || recovery_environment c = false ->
  parse hv = Some pv ->
  (sequoia <= os_to_kernel (str_of_int (major pv)))%Z ->
  _local_metallib_installed (new_object c hb hv ig pa) None false p
  = (Return None, p1) ->
  _get_remote_metallibs env (new_object c hb hv ig pa) p1
  = (Return (Some (before ++ entry :: after)%list), p2) ->
  Forall (fun m => build m <> hb) (before ++ entry :: after)%list ->
  Forall (fun m => parse (version m) <> None /\ closest_ok pv m = false)
    before ->
  closest_ok pv entry = true ->
  url entry <> "" ->
  exists self,
    __init__ env c hb hv ig pa p = (Return self, p2)
    /\ selected_entry self = entry
    /\ closest_entry self = entry
    /\ metallib_url_is_exactly_match self = false
    /\ success self = true.
Proof.
  intros Hg Hp Hge Hprobe Hfetch Hbuild Hbefore Hok Hu.
  rewrite (init_resolves env _ _ _ _ _ _ _ _ _ _ Hg Hp Hge Hprobe Hfetch).
  unfold resolve_with. cbv zeta.
  rewrite exact_build_loop_no_match by exact Hbuild.
  change (negb (str_truthy
                  (metallib_url
                     (set_installed_path None
                        (new_object c hb hv ig pa))))) with true.
  cbv iota. unfold bind.
  rewrite closest_match_loop_skips by exact Hbefore.
  rewrite closest_match_loop_step, Hok.
  assert (Hparse : parse (version entry) <> None).
  { unfold closest_ok in Hok. destruct (parse (version entry));
      [discriminate | discriminate]. }
  destruct (parse (version entry)); [|congruence].
  cbn [metallib_closest_match_url set_closest_fields].
  apply str_truthy_true in Hu. rewrite Hu. cbn [negb].
  eexists. split; [reflexivity|].
  unfold selected_entry, closest_entry. cbn. rewrite entry_eta.
  repeat split.
Qed.

(** *** What a construction does to the process *)

Lemma one_construction_fetch c hb hv ig pa pv installed probes p q :
  install_root q = install_root p ->
  METALLIB_ASSET_LIST q = METALLIB_ASSET_LIST p ->
  trace q = (trace p ++ probes)%list ->
  (probes = []
   \/ probes = [FsExists METALLIB_INSTALL_PATH]
   \/ probes = [FsExists METALLIB_INSTALL_PATH;
                FsIterdir METALLIB_INSTALL_PATH]) ->
  (ig = true -> probes = []) ->
  one_construction c hb hv ig pa p
    (snd (if opt_str_truthy installed then
            (Return (set_success true
                       (set_already_installed true
                          (set_installed_path installed
                             (new_object c hb hv ig pa)))), q)
          else
            match _get_remote_metallibs env
                    (new_object c hb hv ig pa) q with
            | (Raise e, p2) => (Raise e, p2)
            | (Return None, p2) =>
                (Return (set_error_msg
                           "Failed to fetch Metallib manifest"
                           (set_installed_path installed
                              (new_object c hb hv ig pa))), p2)
            | (Return (Some manifest), p2) =>
                resolve_with pv manifest
                  (set_installed_path installed
                     (new_object c hb hv ig pa)) p2
            end)).
Proof.
  intros Hroot Hcache Htrace Hprobes Hig.
  assert (Hstay : one_construction c hb hv ig pa p q).
  { split; [exact Hroot|]. exists probes, [].
    rewrite app_nil_r. repeat split; auto. }
  destruct (opt_str_truthy installed); [exact Hstay|].
  assert (Hsent : forall q2,
    install_root q2 = install_root q ->
    trace q2
    = (trace q ++ [manifest_request (new_object c hb hv ig pa)])%list ->
    one_construction c hb hv ig pa p q2).
  { intros q2 Hr2 Ht2. split; [congruence|].
    exists probes, [manifest_request (new_object c hb hv ig pa)].
    rewrite Ht2, Htrace, <- app_assoc.
    repeat split; auto. discriminate. }
  rewrite fetch_stages.
  destruct (opt_list_truthy (METALLIB_ASSET_LIST q)).
  { destruct (METALLIB_ASSET_LIST q) as [manifest|];
      [rewrite resolve_with_state|]; exact Hstay. }
  destruct (http_get env (trace q)) as [[| | |]|code [manifest|]];
    try (destruct (code =? 200)%Z);
    try rewrite resolve_with_state;
    apply Hsent; reflexivity.
Qed.

Lemma construction_effects_aux c hb hv ig pa p :
  one_construction c hb hv ig pa p (snd (__init__ env c hb hv ig pa p)).
Proof.
  unfold __init__. cbv zeta.
  assert (Hnothing : one_construction c hb hv ig pa p p).
  { split; [reflexivity|]. exists [], []. rewrite app_nil_r.
    repeat split; auto. }
  destruct (installer_environment _ || recovery_environment _);
    [exact Hnothing|].
  rewrite latest_stages. cbn [host_version new_object].
  fold (new_object c hb hv ig pa).
  destruct (parse hv) as [pv|]; [|exact Hnothing].
  destruct (os_to_kernel (str_of_int (major pv)) <? sequoia)%Z;
    [exact Hnothing|].
  clear Hnothing. rewrite probe_stages. cbn [ignore_installed new_object].
  destruct ig.
  { apply (one_construction_fetch c hb hv true pa pv None [] p p); auto.
    now rewrite app_nil_r. }
  destruct (install_root p) as [| |children] eqn:Hroot.
  - apply (one_construction_fetch c hb hv false pa pv None
             [FsExists METALLIB_INSTALL_PATH]); auto.
    discriminate.
  - cbn. split; [reflexivity|].
    exists [FsExists METALLIB_INSTALL_PATH;
            FsIterdir METALLIB_INSTALL_PATH], [].
    rewrite app_nil_r. cbn. rewrite <- app_assoc.
    repeat split; auto. discriminate.
  - apply (one_construction_fetch c hb hv false pa pv
             (first_matching_folder None false children)
             [FsExists METALLIB_INSTALL_PATH;
              FsIterdir METALLIB_INSTALL_PATH]); auto.
    + cbn. now rewrite <- app_assoc.
    + discriminate.
Qed.

(** X11. Whatever its arguments and however it ends, a construction
    leaves the install root as it is and runs no installer; it adds to
    the history at most one probe of the install root (an existence
    test, then possibly a listing) followed by at most one request to
    the endpoint; it probes nothing when installations are ignored, and
    it leaves the cache alone unless it sent the request. *)
Theorem construction_effects c hb hv ig pa p :
  let p' := snd (__init__ env c hb hv ig pa p) in
  install_root p' = install_root p
  /\ exists probes requests,
       trace p' = (trace p ++ probes ++ requests)%list
       /\ (probes = []
           \/ probes = [FsExists METALLIB_INSTALL_PATH]
           \/ probes = [FsExists METALLIB_INSTALL_PATH;
                        FsIterdir METALLIB_INSTALL_PATH])
       /\ (requests = []
           \/ requests = [manifest_request (new_object c hb hv ig pa)])
       /\ (ig = true -> probes = [])
       /\ (requests = [] ->
           METALLIB_ASSET_LIST p' = METALLIB_ASSET_LIST p).
Proof.
  exact (construction_effects_aux c hb hv ig pa p).
Qed.

(** *** Constructing again *)

Lemma closest_match_loop_anywhere pv manifest self p q :
  closest_match_loop pv manifest self q
  = (fst (closest_match_loop pv manifest self p), q).
Proof.
  induction manifest as [|m rest IH]; [reflexivity|].
  rewrite !closest_match_loop_step.
  destruct (parse (version m)); [|reflexivity].
  destruct (closest_ok pv m); [reflexivity | exact IH].
Qed.

Lemma resolve_with_anywhere pv manifest self p q :
  resolve_with pv manifest self q
  = (fst (resolve_with pv manifest self p), q).
Proof.
  unfold resolve_with. cbv zeta.
  destruct (negb (str_truthy _)); [|reflexivity].
  unfold bind. rewrite (closest_match_loop_anywhere pv manifest _ p q).
  destruct (closest_match_loop pv manifest _ p) as [[self'|e] p'];
    cbn [fst]; [|reflexivity].
  now destruct (negb (str_truthy (metallib_closest_match_url self'))).
Qed.

Lemma probe_again self match_ check_version p q r p1 :
  _local_metallib_installed self match_ check_version p = (Return r, p1) ->
  install_root q = install_root p ->
  exists q1,
    _local_metallib_installed self match_ check_version q = (Return r, q1)
    /\ METALLIB_ASSET_LIST q1 = METALLIB_ASSET_LIST q
    /\ install_root q1 = install_root q
    /\ fetches (trace q1) = fetches (trace q).
Proof.
  rewrite !probe_stages. intros Hrun Hroot. rewrite Hroot.
  destruct (ignore_installed self).
  - injection Hrun as <- _. eexists. split; [reflexivity|]. now repeat split.
  - destruct (install_root p) as [| |children]; [| discriminate |];
      injection Hrun as <- _; eexists; (split; [reflexivity|]);
      cbn; unfold fetches; rewrite ?filter_app; cbn;
      rewrite ?app_nil_r; repeat split; assumption.
Qed.

(** X12. Once the cache holds a non-empty manifest, constructing again
    with the same arguments returns the same object without calling the
    endpoint: if a construction returned [self] and left a non-empty
    manifest in the cache, the next one from there returns [self] too,
    adds no request to the history and leaves cache and install root as
    they are. *)
Theorem constructing_again_is_offline c hb hv ig pa p self p1 :
  __init__ env c hb hv ig pa p = (Return self, p1) ->
  opt_list_truthy (METALLIB_ASSET_LIST p1) = true ->
  exists p2,
    __init__ env c hb hv ig pa p1 = (Return self, p2)
    /\ fetches (trace p2) = fetches (trace p1)
    /\ METALLIB_ASSET_LIST p2 = METALLIB_ASSET_LIST p1
    /\ install_root p2 = install_root p1.
Proof.
  intros Hrun Hcache.
  destruct (init_returns _ _ _ _ _ _ _ _ Hrun)
    as [[_ ->]
       |[Hg [pv [Hp [Hgate [installed [q [Hprobe
          [[Hi [-> ->]] | [Hi [fetched [Hfetch Hres]]]]]]]]]]]].
  - exists p. now repeat split.
  - pose proof (probe_keeps_root (new_object c hb hv ig pa) None false p)
      as Hroot.
    rewrite Hprobe in Hroot. cbn [snd] in Hroot.
    destruct (probe_again _ _ _ _ q _ _ Hprobe Hroot)
      as [q1 [Hprobe1 [Hc1 [Hr1 Hf1]]]].
    exists q1. split; [|now repeat split].
    rewrite (init_unguarded env _ _ _ _ _ _ Hg), latest_stages.
    cbn [host_version new_object]. fold (new_object c hb hv ig pa).
    rewrite Hp, Hgate, Hprobe1, Hi. reflexivity.
  - destruct fetched as [manifest|].
    2:{ exfalso. pose proof (fetch_none_not_cached _ _ _ Hfetch).
        congruence. }
    destruct (fetch_some_in_cache _ _ _ _ Hfetch) as [Hm Hrootf].
    pose proof (probe_keeps_root (new_object c hb hv ig pa) None false p)
      as Hroot.
    rewrite Hprobe in Hroot. cbn [snd] in Hroot.
    assert (Hroot1 : install_root p1 = install_root p) by congruence.
    destruct (probe_again _ _ _ _ p1 _ _ Hprobe Hroot1)
      as [q1 [Hprobe1 [Hc1 [Hr1 Hf1]]]].
    exists q1. split; [|now repeat split].
    rewrite (init_unguarded env _ _ _ _ _ _ Hg), latest_stages.
    cbn [host_version new_object]. fold (new_object c hb hv ig pa).
    rewrite Hp, Hgate, Hprobe1, Hi.
    assert (Hne : manifest <> []).
    { rewrite Hm in Hcache. now destruct manifest. }
    rewrite (fetch_cached env _ q1 manifest) by congruence.
    rewrite (resolve_with_anywhere pv manifest _ p1 q1), Hres.
    reflexivity.
Qed.

(** *** The installer *)

(** X13. When [install_metallib] returns, it returns [False] in one case
    only: the object is not passive, resolution succeeded, nothing is
    marked installed, and the installer, run once on the given or default
    path, exited with a status other than 0.  The cache is left alone and
    the history has grown by that one run or not at all. *)
Theorem install_false_only_on_installer_failure
    self metallib p result p1 :
  install_metallib env self metallib p = (Return result, p1) ->
  METALLIB_ASSET_LIST p1 = METALLIB_ASSET_LIST p
  /\ (trace p1 = trace p
      \/ trace p1
         = (trace p ++ [RunAsRoot (installer_argv self metallib)])%list)
  /\ (result = false <->
      passive self = false /\ success self = true
      /\ metallib_already_installed self = false
      /\ trace p1
         = (trace p ++ [RunAsRoot (installer_argv self metallib)])%list
      /\ fst (run_as_root env (trace p) (installer_argv self metallib)
                (install_root p)) <> 0%Z).
Proof.
  unfold install_metallib.
  destruct (passive self).
  { intros [= <- <-]. repeat split; auto; try discriminate.
    intros [H _]. discriminate. }
  destruct (success self).
  2:{ intros [= <- <-]. repeat split; auto; try discriminate.
      intros [_ [H _]]. discriminate. }
  destruct (metallib_already_installed self).
  { intros [= <- <-]. repeat split; auto; try discriminate.
    intros [_ [_ [H _]]]. discriminate. }
  cbn [negb orb]. unfold bind, subprocess_run_as_root.
  destruct (run_as_root env (trace p) (installer_argv self metallib)
              (install_root p)) as [rc root].
  cbn [fst].
  destruct (rc =? 0)%Z eqn:Hrc; cbn [negb]; intros [= <- <-];
    cbn; repeat split; auto; try discriminate.
  - intros [_ [_ [_ [_ H]]]]. apply Z.eqb_eq in Hrc. contradiction.
  - now apply Z.eqb_neq.
Qed.

(** *** The closest match *)

(** Whatever the manifest, a closest match the resolver has assigned is
    an entry of the manifest that passes both filters. *)
Lemma resolve_with_closest c hb hv ig pa installed pv manifest p self p' :
  resolve_with pv manifest
    (set_installed_path installed (new_object c hb hv ig pa)) p
  = (Return self, p') ->
  closest_entry self = no_entry
  \/ (In (closest_entry self) manifest
      /\ closest_ok pv (closest_entry self) = true).
Proof.
  unfold resolve_with. cbv zeta.
  set (self0 := set_installed_path installed (new_object c hb hv ig pa)).
  assert (Hloop : forall s1,
    closest_entry s1 = no_entry ->
    (self' <- closest_match_loop pv manifest s1 ;;
     if negb (str_truthy (metallib_closest_match_url self')) then
       ret (set_error_msg
              ("No suitable metallib found for " ++ host_build self')
              self')
     else
       ret (set_success true
              (set_url_fields
                 (metallib_closest_match_url self')
                 (metallib_closest_match_url_build self')
                 (metallib_closest_match_url_version self')
                 self'))) p
    = (Return self, p') ->
    closest_entry self = no_entry
    \/ (In (closest_entry self) manifest
        /\ closest_ok pv (closest_entry self) = true)).
  { intros s1 Hs1.
    destruct (closest_match_loop_ends pv manifest s1 p)
      as [[before [e [after [Hm [Hb [He Hr]]]]]]
         |[[Hall Hr]
          |[before [bad [after [Hm [Hb [Hbad Hr]]]]]]]];
      unfold bind; rewrite Hr; [| |discriminate].
    - assert (Hine : In e manifest) by (rewrite Hm; apply in_elt).
      cbn [metallib_closest_match_url set_closest_fields].
      destruct (negb (str_truthy (url e))); intros [= <- _]; right;
        unfold closest_entry; cbn; rewrite entry_eta; now split.
    - destruct (negb (str_truthy (metallib_closest_match_url s1)));
        intros [= <- _]; left; exact Hs1. }
  destruct (exact_build_loop_cases manifest self0)
    as [-> | [entry [Hin [Hb ->]]]].
  - change (negb (str_truthy (metallib_url self0))) with true. cbv iota.
    now apply Hloop.
  - cbn [metallib_url set_is_exactly_match set_url_fields].
    destruct (negb (str_truthy (url entry))).
    + now apply Hloop.
    + intros [= <- _]. now left.
Qed.

(** C1, as amended.  Once a manifest is fetched: a closest match held by
    an object the constructor returns is an entry of the manifest whose
    version is at most the host's and has the host's major version; and
    when no entry has the host's build, and the versions of the entries
    listed before the first one that passes both filters all parse, that
    first entry is the closest match, the exact-match flag stays false,
    and the entry is the resolved one when its URL is not empty. *)
Theorem closest_match_is_first_admissible
    c hb hv ig pa pv p p1 manifest p2 :
  installer_environment c || recovery_environment c = false ->
  parse hv = Some pv ->
  (sequoia <= os_to_kernel (str_of_int (major pv)))%Z ->
  _local_metallib_installed (new_object c hb hv ig pa) None false p
  = (Return None, p1) ->
  _get_remote_metallibs env (new_object c hb hv ig pa) p1
  = (Return (Some manifest), p2) ->
  (forall self p3,
      __init__ env c hb hv ig pa p = (Return self, p3) ->
      closest_entry self = no_entry
      \/ (In (closest_entry self) manifest
          /\ closest_ok pv (closest_entry self) = true))
  /\ (forall before entry after,
        manifest = (before ++ entry :: after)%list ->
        Forall (fun m => build m <> hb) manifest ->
        Forall (fun m => parse (version m) <> None
                         /\ closest_ok pv m = false) before ->
        closest_ok pv entry = true ->
        exists self,
          __init__ env c hb hv ig pa p = (Return self, p2)
          /\ metallib_url_is_exactly_match self = false
          /\ closest_entry self = entry
          /\ (url entry <> "" ->
              selected_entry self = entry /\ success self = true)).
Proof.
  intros Hg Hp Hge Hprobe Hfetch.
  rewrite (init_resolves env _ _ _ _ _ _ _ _ _ _ Hg Hp Hge Hprobe Hfetch).
  split.
  - intros self p3 Hrun.
    now apply (resolve_with_closest _ _ _ _ _ _ _ _ _ _ _ Hrun).
  - intros before entry after -> Hbuild Hbefore Hok.
    unfold resolve_with. cbv zeta.
    rewrite exact_build_loop_no_match by exact Hbuild.
    change (negb (str_truthy
                    (metallib_url
                       (set_installed_path None
                          (new_object c hb hv ig pa))))) with true.
    cbv iota. unfold bind.
    rewrite closest_match_loop_skips by exact Hbefore.
    rewrite closest_match_loop_step, Hok.
    assert (Hparse : parse (version entry) <> None).
    { unfold closest_ok in Hok.
      destruct (parse (version entry)); discriminate. }
    destruct (parse (version entry)); [|congruence].
    cbn [metallib_closest_match_url set_closest_fields].
    destruct (str_truthy (url entry)) eqn:Hu; cbn [negb];
      (eexists; split; [reflexivity|]);
      unfold selected_entry, closest_entry; cbn; rewrite entry_eta;
      repeat split.
    all: exfalso; apply str_truthy_false in Hu; contradiction.
Qed.

End Coverage.

(** ** The further properties on sample data *)

(** X1 on an endpoint that cannot be reached. *)
Lemma fetch_without_manifest_is_not_cached_witness :
  Outage.after_failed_fetch
  = record (manifest_request (new_object Sample.consts "24B83" "15.1"
                                false false))
      (record (FsExists METALLIB_INSTALL_PATH) Sample.fresh)
  /\ opt_list_truthy (METALLIB_ASSET_LIST Outage.after_failed_fetch) = false
  /\ forall self',
       trace (snd (_get_remote_metallibs Outage.unreachable self'
                     Outage.after_failed_fetch))
       = (trace Outage.after_failed_fetch ++ [manifest_request self'])%list.
Proof.
  apply (fetch_without_manifest_is_not_cached Outage.unreachable
           (new_object Sample.consts "24B83" "15.1" false false)
           (record (FsExists METALLIB_INSTALL_PATH) Sample.fresh)
           (Return None) Outage.after_failed_fetch).
  - reflexivity.
  - discriminate.
Defined.

(** X2 on a first fetch of the sample manifest. *)
Lemma fetch_returns_what_it_caches_witness :
  METALLIB_ASSET_LIST (Sample.fetched Sample.manifest)
  = Some Sample.manifest
  /\ install_root (Sample.fetched Sample.manifest)
     = install_root (record (FsExists METALLIB_INSTALL_PATH) Sample.fresh).
Proof.
  destruct (fetch_returns_what_it_caches
              (Sample.serving Sample.manifest)
              (new_object Sample.consts "24B83" "15.1" false false)
              (record (FsExists METALLIB_INSTALL_PATH) Sample.fresh)
              Sample.manifest (Sample.fetched Sample.manifest) eq_refl)
    as [Hc [Hr _]].
  split; [exact Hc | exact Hr].
Defined.

(** X3 on an install root with two build folders, probed by build. *)
Lemma probe_returns_first_matching_directory_witness :
  exists before name after,
    install_root Outage.two_folders
    = Dir (before ++ (name, true) :: after)
    /\ METALLIB_INSTALL_PATH ++ "/15.1-24B83"
       = METALLIB_INSTALL_PATH ++ "/" ++ name
    /\ folder_matches (Some "24B83") false name
    /\ Forall (fun child =>
                 snd child = true ->
                 ~ folder_matches (Some "24B83") false (fst child))
         before.
Proof.
  destruct (probe_returns_first_matching_directory
              (new_object Sample.consts "24B83" "15.1" false false)
              (Some "24B83") false Outage.two_folders
              (Some (METALLIB_INSTALL_PATH ++ "/15.1-24B83"))
              (record (FsIterdir METALLIB_INSTALL_PATH)
                 (record (FsExists METALLIB_INSTALL_PATH)
                    Outage.two_folders))
              eq_refl)
    as [_ [_ [_ H]]].
  exact H.
Defined.

(** X4 on a host version that is a name. *)
Lemma unparsable_host_version_raises_witness :
  __init__ (Sample.serving Sample.manifest) Sample.consts
    "24B83" "Sequoia" false false Sample.fresh
  = (Raise (InvalidVersion "Sequoia"), Sample.fresh).
Proof.
  apply (unparsable_host_version_raises
           (PV := release_version) (OS := xnu_os_data)
           (Sample.serving Sample.manifest) Sample.consts
           "24B83" "Sequoia" false false Sample.fresh).
  - reflexivity.
  - reflexivity.
Defined.

(** X5 on an endpoint that answers 404. *)
Lemma fetch_failure_outcome_witness :
  exists self,
    __init__ Outage.not_found Sample.consts "24B83" "15.1" false false
      Sample.fresh
    = (Return self, Outage.after_failed_fetch)
    /\ success self = false
    /\ error_msg self = "Failed to fetch Metallib manifest"
    /\ metallib_already_installed self = false
    /\ metallib_installed_path self = None
    /\ selected_entry self = no_entry
    /\ closest_entry self = no_entry
    /\ (forall override_path, retrieve_download self override_path = None)
    /\ (forall metallib q,
          install_metallib Outage.not_found self metallib q
          = (Return true, q)).
Proof.
  apply (fetch_failure_outcome
           (PV := release_version) (OS := xnu_os_data)
           Outage.not_found Sample.consts "24B83" "15.1" false false
           [15; 1]%N Sample.fresh
           (record (FsExists METALLIB_INSTALL_PATH) Sample.fresh)
           Outage.after_failed_fetch).
  - reflexivity.
  - reflexivity.
  - vm_compute. discriminate.
  - reflexivity.
  - reflexivity.
Defined.

(** X6 on the resolution of a listed build: the object keeps its
    arguments and is in one of the five states. *)
Lemma construction_outcomes_witness :
  host_build Outage.resolved_listed = "24B83"
  /\ host_version Outage.resolved_listed = "15.1"
  /\ (success Outage.resolved_listed = true
      \/ error_msg Outage.resolved_listed <> "").
Proof.
  destruct (construction_outcomes
              (PV := release_version) (OS := xnu_os_data)
              (Sample.serving Sample.manifest) Sample.consts
              "24B83" "15.1" false false Sample.fresh
              Outage.resolved_listed (Sample.fetched Sample.manifest)
              eq_refl)
    as [[_ [Hb [Hv _]]] Hstate].
  split; [exact Hb|]. split; [exact Hv|].
  destruct Hstate as [[Hs _] | [[Hs _] | [[Hs _]
                     | [[_ [He _]] | [_ [He _]]]]]];
    try (left; exact Hs); right; rewrite He; discriminate.
Defined.

(** X7 on the same resolution, with an override path that is not in
    the form [pathlib] keeps. *)
Lemma download_comes_from_manifest_witness :
  success Outage.resolved_listed = true
  /\ "/Users/Shared/pkgs/m.pkg"
     = (if str_truthy "/Users/Shared//pkgs/./m.pkg"
        then Path "/Users/Shared//pkgs/./m.pkg"
        else metallib_download_path Sample.consts)
  /\ exists manifest entry pv,
       METALLIB_ASSET_LIST (Sample.fetched Sample.manifest) = Some manifest
       /\ In entry manifest
       /\ selected_entry Outage.resolved_listed = entry
       /\ "https://example.org/15.1-24B83.pkg" = url entry
       /\ url entry <> ""
       /\ Release.parse "15.1" = Some pv
       /\ (build entry = "24B83" \/ closest_ok pv entry = true).
Proof.
  apply (download_comes_from_manifest
           (PV := release_version) (OS := xnu_os_data)
           (PL := posix_paths)
           (Sample.serving Sample.manifest) Sample.consts
           "24B83" "15.1" false false Sample.fresh
           Outage.resolved_listed (Sample.fetched Sample.manifest)
           "/Users/Shared//pkgs/./m.pkg"
           {| download_url := "https://example.org/15.1-24B83.pkg";
              download_path := "/Users/Shared/pkgs/m.pkg" |}).
  - reflexivity.
  - reflexivity.
Defined.

(** X8 on a manifest where the entry of the host's build has no URL: the
    flag is true although the entry of another build is resolved. *)
Lemma exact_flag_tells_build_is_listed_witness :
  Sample.fetched Sample.manifest_missing_url
  = Sample.fetched Sample.manifest_missing_url
  /\ metallib_url_is_exactly_match Outage.resolved_missing_url
     = lists_build "24B91" Sample.manifest_missing_url
  /\ (metallib_url_is_exactly_match Outage.resolved_missing_url = true ->
      closest_entry Outage.resolved_missing_url = no_entry ->
      metallib_url_build Outage.resolved_missing_url = "24B91").
Proof.
  apply (exact_flag_tells_build_is_listed
           (PV := release_version) (OS := xnu_os_data)
           (Sample.serving Sample.manifest_missing_url) Sample.consts
           "24B91" "15.1.1" false false [15; 1; 1]%N Sample.fresh
           (record (FsExists METALLIB_INSTALL_PATH) Sample.fresh)
           Sample.manifest_missing_url
           (Sample.fetched Sample.manifest_missing_url)
           Outage.resolved_missing_url
           (Sample.fetched Sample.manifest_missing_url)).
  - reflexivity.
  - reflexivity.
  - vm_compute. discriminate.
  - reflexivity.
  - reflexivity.
  - reflexivity.
Defined.

(** X9 on a manifest whose second entry has the version [fifteen]. *)
Lemma malformed_manifest_version_raises_witness :
  __init__ (Sample.serving [Sample.entry_26_0; Outage.entry_malformed])
    Sample.consts "24B83" "15.1" false false Sample.fresh
  = (Raise (InvalidVersion "fifteen"),
     Sample.fetched [Sample.entry_26_0; Outage.entry_malformed])
  /\ METALLIB_ASSET_LIST
       (Sample.fetched [Sample.entry_26_0; Outage.entry_malformed])
     = Some [Sample.entry_26_0; Outage.entry_malformed].
Proof.
  apply (malformed_manifest_version_raises
           (PV := release_version) (OS := xnu_os_data)
           (Sample.serving [Sample.entry_26_0; Outage.entry_malformed])
           Sample.consts "24B83" "15.1" false false [15; 1]%N Sample.fresh
           (record (FsExists METALLIB_INSTALL_PATH) Sample.fresh)
           [Sample.entry_26_0] Outage.entry_malformed []
           (Sample.fetched [Sample.entry_26_0; Outage.entry_malformed])).
  - reflexivity.
  - reflexivity.
  - vm_compute. discriminate.
  - reflexivity.
  - reflexivity.
  - repeat constructor; discriminate.
  - repeat constructor. discriminate.
  - reflexivity.
Defined.

(** X10 on a manifest where the entry with the version [fifteen] comes
    after the first admissible one. *)
Lemma entries_after_the_match_are_not_read_witness :
  exists self,
    __init__
      (Sample.serving
         [Sample.entry_26_0; Sample.entry_15_0; Outage.entry_malformed])
      Sample.consts "24B91" "15.1.1" false false Sample.fresh
    = (Return self,
       Sample.fetched
         [Sample.entry_26_0; Sample.entry_15_0; Outage.entry_malformed])
    /\ selected_entry self = Sample.entry_15_0
    /\ closest_entry self = Sample.entry_15_0
    /\ metallib_url_is_exactly_match self = false
    /\ success self = true.
Proof.
  apply (entries_after_the_match_are_not_read
           (PV := release_version) (OS := xnu_os_data)
           (Sample.serving
              [Sample.entry_26_0; Sample.entry_15_0;
               Outage.entry_malformed])
           Sample.consts "24B91" "15.1.1" false false [15; 1; 1]%N
           Sample.fresh
           (record (FsExists METALLIB_INSTALL_PATH) Sample.fresh)
           [Sample.entry_26_0] Sample.entry_15_0 [Outage.entry_malformed]
           (Sample.fetched
              [Sample.entry_26_0; Sample.entry_15_0;
               Outage.entry_malformed])).
  - reflexivity.
  - reflexivity.
  - vm_compute. discriminate.
  - reflexivity.
  - reflexivity.
  - repeat constructor; discriminate.
  - repeat constructor. discriminate.
  - reflexivity.
  - discriminate.
Defined.

(** X12 on a second construction after the sample manifest was fetched:
    it only probes again. *)
Lemma constructing_again_is_offline_witness :
  exists p2,
    __init__ (Sample.serving Sample.manifest) Sample.consts
      "24B83" "15.1" false false (Sample.fetched Sample.manifest)
    = (Return Outage.resolved_listed, p2)
    /\ fetches (trace p2) = fetches (trace (Sample.fetched Sample.manifest))
    /\ METALLIB_ASSET_LIST p2
       = METALLIB_ASSET_LIST (Sample.fetched Sample.manifest)
    /\ install_root p2 = install_root (Sample.fetched Sample.manifest).
Proof.
  apply (constructing_again_is_offline
           (PV := release_version) (OS := xnu_os_data)
           (Sample.serving Sample.manifest) Sample.consts
           "24B83" "15.1" false false Sample.fresh).
  - reflexivity.
  - reflexivity.
Defined.

(** ** The amended claims on sample data *)

(** C1, as amended, on a host on macOS 15.1.1 whose build is not in the
    sample manifest: 26.0 and 15.2 are passed over and 15.1 is taken. *)
Lemma closest_match_is_first_admissible_witness :
  exists self,
    __init__ (Sample.serving Sample.manifest) Sample.consts
      "24B91" "15.1.1" false false Sample.fresh
    = (Return self, Sample.fetched Sample.manifest)
    /\ metallib_url_is_exactly_match self = false
    /\ closest_entry self = Sample.entry_15_1
    /\ (url Sample.entry_15_1 <> "" ->
        selected_entry self = Sample.entry_15_1 /\ success self = true).
Proof.
  destruct (closest_match_is_first_admissible
              (PV := release_version) (OS := xnu_os_data)
              (Sample.serving Sample.manifest) Sample.consts
              "24B91" "15.1.1" false false [15; 1; 1]%N Sample.fresh
              (record (FsExists METALLIB_INSTALL_PATH) Sample.fresh)
              Sample.manifest (Sample.fetched Sample.manifest)
              eq_refl eq_refl ltac:(vm_compute; discriminate)
              eq_refl eq_refl)
    as [_ Hfirst].
  apply (Hfirst [Sample.entry_26_0; Sample.entry_15_2] Sample.entry_15_1
           [Sample.entry_15_0]).
  - reflexivity.
  - repeat constructor; discriminate.
  - repeat constructor; discriminate.
  - reflexivity.
Defined.

(** C1, counterexample.  No entry has the host's build in either run.
    In the first, an entry whose version is no version is listed before
    the first entry that passes both filters: the constructor raises
    [InvalidVersion] and selects nothing.  In the second, the first entry
    that passes both filters has an empty URL: it is held as closest
    match, but nothing is resolved and the constructor reports that no
    suitable package was found. *)
Lemma closest_match_defeated_by_malformed_or_unlocated_entry :
  (Forall (fun m => build m <> "24B91")
     [Outage.entry_malformed; Sample.entry_15_0]
   /\ find (closest_ok [15; 1; 1]%N)
        [Outage.entry_malformed; Sample.entry_15_0]
      = Some Sample.entry_15_0
   /\ __init__ (Sample.serving [Outage.entry_malformed; Sample.entry_15_0])
        Sample.consts "24B91" "15.1.1" false false Sample.fresh
      = (Raise (InvalidVersion "fifteen"),
         Sample.fetched [Outage.entry_malformed; Sample.entry_15_0]))
  /\ (Forall (fun m => build m <> "24B99")
        [Sample.entry_no_url; Sample.entry_15_0]
      /\ find (closest_ok [15; 1; 1]%N)
           [Sample.entry_no_url; Sample.entry_15_0]
         = Some Sample.entry_no_url
      /\ exists self,
           __init__
             (Sample.serving [Sample.entry_no_url; Sample.entry_15_0])
             Sample.consts "24B99" "15.1.1" false false Sample.fresh
           = (Return self,
              Sample.fetched [Sample.entry_no_url; Sample.entry_15_0])
           /\ closest_entry self = Sample.entry_no_url
           /\ selected_entry self = no_entry
           /\ success self = false
           /\ error_msg self = "No suitable metallib found for 24B99").
Proof.
  split; (split; [repeat constructor; discriminate|]);
    (split; [reflexivity|]).
  - vm_compute. reflexivity.
  - eexists. split; [vm_compute; reflexivity|]. repeat split.
Qed.

(** C6, counterexample.  A host of build 24B83 on 15.1; no entry has its
    build or passes both filters in either run.  On a manifest holding
    only a 26.0 entry, the message is
    [No suitable metallib found for 24B83], not
    [no suitable package found for build 24B83].  On a manifest that also
    holds an entry whose version is no version, the constructor raises
    [InvalidVersion] instead of returning with a message. *)
Lemma no_suitable_wording_and_malformed_entry :
  (Forall (fun m => build m <> "24B83") [Sample.entry_26_0]
   /\ Forall (fun m => closest_ok [15; 1]%N m = false) [Sample.entry_26_0]
   /\ exists self,
        __init__ (Sample.serving [Sample.entry_26_0]) Sample.consts
          "24B83" "15.1" false false Sample.fresh
        = (Return self, Sample.fetched [Sample.entry_26_0])
        /\ success self = false
        /\ error_msg self = "No suitable metallib found for 24B83"
        /\ error_msg self <> "no suitable package found for build 24B83")
  /\ (Forall (fun m => build m <> "24B83")
        [Sample.entry_26_0; Outage.entry_malformed]
      /\ Forall (fun m => closest_ok [15; 1]%N m = false)
           [Sample.entry_26_0; Outage.entry_malformed]
      /\ __init__
           (Sample.serving [Sample.entry_26_0; Outage.entry_malformed])
           Sample.consts "24B83" "15.1" false false Sample.fresh
         = (Raise (InvalidVersion "fifteen"),
            Sample.fetched [Sample.entry_26_0; Outage.entry_malformed])).
Proof.
  split; (split; [repeat constructor; discriminate|]);
    (split; [repeat constructor|]).
  - eexists. split; [vm_compute; reflexivity|].
    repeat split. discriminate.
  - vm_compute. reflexivity.
Qed.

(** X13 on a resolved object and an installer that exits with status 1. *)
Lemma install_false_only_on_installer_failure_witness :
  (false = false <->
   passive Outage.resolved_listed = false
   /\ success Outage.resolved_listed = true
   /\ metallib_already_installed Outage.resolved_listed = false
   /\ trace (record (RunAsRoot (installer_argv Outage.resolved_listed None))
               Sample.fresh)
      = (trace Sample.fresh
           ++ [RunAsRoot (installer_argv Outage.resolved_listed None)])%list
   /\ fst (run_as_root Outage.not_found (trace Sample.fresh)
             (installer_argv Outage.resolved_listed None)
             (install_root Sample.fresh)) <> 0%Z).
Proof.
  destruct (install_false_only_on_installer_failure Outage.not_found
              Outage.resolved_listed None Sample.fresh false
              (record (RunAsRoot (installer_argv Outage.resolved_listed
                                    None))
                 Sample.fresh)
              eq_refl)
    as [_ [_ H]].
  exact H.
Defined.
